(** * AutoNetworkLogin: the login worker and the reconnect controller

    A shallow embedding of [自动登录-V1.2.py] and [自动登录-V1.2.2.py]:

    - the values a YAML configuration or a JSON response body holds
      ([pyval]), with the Python operations the program applies to them
      (subscription, [dict.get], item assignment, truthiness, [in], [>]);
    - exceptions as values of [outcome], and the state-and-exception monad
      [M] in which a handler's writes made before a [raise] stay visible
      after it, as in Python;
    - [LoginWorker.do_login] of both versions, run against a model of
      [requests.post];
    - [NetworkLoginApp]: its attributes as the record [App], its slots as
      computations in [M App], and the events that drive them.

    Strings are Python [str] values in UTF-8; the only operation that depends
    on the encoding is the slice [text[:100]], which [py_slice_to] takes by
    code point.  Calls into the Qt widgets, the tray icon and the file
    system are recorded, in program order, in the [shell] trace of the
    application; widget setters are taken to accept their argument, and a
    programmatic widget update does not feed back into a slot. *)

From Stdlib Require Import ZArith List String Ascii Bool Floats Lia DecimalString.
Import ListNotations.
Open Scope string_scope.
Open Scope Z_scope.

#[local] Set Warnings "-register-all".

(* ================================================================== *)
(** * Python values *)
(* ================================================================== *)

(** What [yaml.safe_load] and [response.json()] return: scalars, lists and
    string-keyed mappings.  A mapping keeps its entries in insertion order. *)
Inductive pyval : Type :=
| PNone
| PBool (b : bool)
| PInt (z : Z)
| PFloat (f : float)
| PStr (s : string)
| PList (xs : list pyval)
| PDict (kvs : list (string * pyval)).

(** The exception classes that the program raises, meets or names in an
    [except] clause.  All of them derive from [Exception].  [InvalidURL]
    and [JSONDecodeError] are the [requests.exceptions] classes of that
    name: they derive from [RequestException] and from [ValueError]. *)
Inductive exn_class : Type :=
| RequestException
| ConnectionError
| Timeout
| InvalidURL
| JSONDecodeError
| ValueError
| KeyError
| TypeError
| AttributeError
| OverflowError
| OSError
| YAMLError
| OtherException.

(** An exception instance: its class and [str(e)]. *)
Record exn : Type := Exn { exn_type : exn_class; exn_str : string }.

Definition is_RequestException (e : exn) : bool :=
  match exn_type e with
  | RequestException | ConnectionError | Timeout | InvalidURL | JSONDecodeError => true
  | _ => false
  end.

Definition is_ValueError (e : exn) : bool :=
  match exn_type e with
  | ValueError | InvalidURL | JSONDecodeError => true
  | _ => false
  end.

Definition is_Exception (e : exn) : bool := true.

(** The result of evaluating an expression: a value or a raised exception. *)
Inductive outcome (A : Type) : Type :=
| Ret (a : A)
| Raise (e : exn).
Arguments Ret {A} a.
Arguments Raise {A} e.

(** ** Strings *)

Definition lower_ascii (c : ascii) : ascii :=
  let n := nat_of_ascii c in
  if ((65 <=? n) && (n <=? 90))%nat then ascii_of_nat (n + 32) else c.

(** [s.lower()].  The program only searches the result for ASCII literals;
    the case mapping of a character outside ASCII neither creates nor
    removes an occurrence of one, so those characters are left as they are. *)
Fixpoint lower (s : string) : string :=
  match s with
  | EmptyString => EmptyString
  | String c s' => String (lower_ascii c) (lower s')
  end.

(** [needle in hay] on two strings. *)
Fixpoint contains (needle hay : string) : bool :=
  match hay with
  | EmptyString => prefix needle EmptyString
  | String _ hay' => prefix needle hay || contains needle hay'
  end.

(** A UTF-8 continuation byte, [10xxxxxx]: it belongs to the character
    that the nearest lead byte before it starts. *)
Definition is_continuation (c : ascii) : bool :=
  let n := nat_of_ascii c in ((128 <=? n) && (n <=? 191))%nat.

(** [s[:n]]: the first [n] characters (code points) of [s]. *)
Fixpoint py_slice_to (n : nat) (s : string) : string :=
  match s with
  | EmptyString => EmptyString
  | String c s' =>
      if is_continuation c then String c (py_slice_to n s')
      else match n with
           | O => EmptyString
           | S n' => String c (py_slice_to n' s')
           end
  end.

(** [len(s)], in characters. *)
Fixpoint py_len (s : string) : nat :=
  match s with
  | EmptyString => O
  | String c s' => if is_continuation c then py_len s' else S (py_len s')
  end.

Fixpoint repeat_string (n : nat) (s : string) : string :=
  match n with
  | O => EmptyString
  | S n' => s ++ repeat_string n' s
  end.

(** ** Operations on values *)

Definition type_name (v : pyval) : string :=
  match v with
  | PNone => "NoneType"
  | PBool _ => "bool"
  | PInt _ => "int"
  | PFloat _ => "float"
  | PStr _ => "str"
  | PList _ => "list"
  | PDict _ => "dict"
  end.

(** [bool(v)], the test an [if] applies. *)
Definition truthy (v : pyval) : bool :=
  match v with
  | PNone => false
  | PBool b => b
  | PInt z => negb (z =? 0)
  | PFloat f => negb (PrimFloat.eqb f 0%float)
  | PStr s => negb (s =? "")%string
  | PList xs => match xs with [] => false | _ :: _ => true end
  | PDict kvs => match kvs with [] => false | _ :: _ => true end
  end.

(** [v == s] for a string literal [s]. *)
Definition py_eq_str (v : pyval) (s : string) : bool :=
  match v with
  | PStr t => (t =? s)%string
  | _ => false
  end.

Fixpoint assoc (k : string) (kvs : list (string * pyval)) : option pyval :=
  match kvs with
  | [] => None
  | (k', v) :: kvs' => if (k' =? k)%string then Some v else assoc k kvs'
  end.

(** [d[k] = v] on the entries of a mapping: an existing key keeps its place. *)
Fixpoint assoc_set (k : string) (v : pyval) (kvs : list (string * pyval))
  : list (string * pyval) :=
  match kvs with
  | [] => [(k, v)]
  | (k', v') :: kvs' =>
      if (k' =? k)%string then (k, v) :: kvs' else (k', v') :: assoc_set k v kvs'
  end.

Definition quote (s : string) : string := "'" ++ s ++ "'".

(** [v[k]] for a string key [k]. *)
Definition py_getitem (v : pyval) (k : string) : outcome pyval :=
  match v with
  | PDict kvs =>
      match assoc k kvs with
      | Some x => Ret x
      | None => Raise (Exn KeyError (quote k))
      end
  | PStr _ => Raise (Exn TypeError "string indices must be integers, not 'str'")
  | PList _ => Raise (Exn TypeError "list indices must be integers or slices, not str")
  | _ => Raise (Exn TypeError (quote (type_name v) ++ " object is not subscriptable"))
  end.

(** [v.get(k, default)]. *)
Definition py_get (v : pyval) (k : string) (default : pyval) : outcome pyval :=
  match v with
  | PDict kvs =>
      Ret (match assoc k kvs with
           | Some x => x
           | None => default
           end)
  | _ => Raise (Exn AttributeError
                  (quote (type_name v) ++ " object has no attribute 'get'"))
  end.

(** [v[k] = x] for a string key [k]; returns the updated [v]. *)
Definition py_setitem (v : pyval) (k : string) (x : pyval) : outcome pyval :=
  match v with
  | PDict kvs => Ret (PDict (assoc_set k x kvs))
  | PList _ => Raise (Exn TypeError "list indices must be integers or slices, not str")
  | _ => Raise (Exn TypeError
                  (quote (type_name v) ++ " object does not support item assignment"))
  end.

(** [needle in v] for a string literal [needle]. *)
Definition py_in (needle : string) (v : pyval) : outcome bool :=
  match v with
  | PStr s => Ret (contains needle s)
  | PList xs => Ret (existsb (fun x => py_eq_str x needle) xs)
  | PDict kvs => Ret (existsb (fun kv => (fst kv =? needle)%string) kvs)
  | _ => Raise (Exn TypeError
                  ("argument of type " ++ quote (type_name v) ++ " is not iterable"))
  end.

(** [v > 0]. *)
Definition py_gt0 (v : pyval) : outcome bool :=
  match v with
  | PBool b => Ret b
  | PInt z => Ret (0 <? z)
  | PFloat f => Ret (PrimFloat.ltb 0%float f)
  | _ => Raise (Exn TypeError
                  ("'>' not supported between instances of "
                     ++ quote (type_name v) ++ " and 'int'"))
  end.

(** [v * 1000]. *)
Definition py_mul_1000 (v : pyval) : outcome pyval :=
  match v with
  | PBool b => Ret (PInt (if b then 1000 else 0))
  | PInt z => Ret (PInt (z * 1000))
  | PFloat f => Ret (PFloat (PrimFloat.mul f 1000%float))
  | PStr s => Ret (PStr (repeat_string 1000 s))
  | PList xs => Ret (PList (List.concat (repeat xs 1000%nat)))
  | _ => Raise (Exn TypeError
                  ("unsupported operand type(s) for *: "
                     ++ quote (type_name v) ++ " and 'int'"))
  end.

(** [time.sleep(v)]: returns for a number that is not negative and fits the
    C timestamp (nanoseconds in 64 bits). *)
Definition py_sleep (v : pyval) : outcome unit :=
  match v with
  | PBool _ => Ret tt
  | PInt z =>
      if z <? 0 then Raise (Exn ValueError "sleep length must be non-negative")
      else if 9223372036 <? z then
        Raise (Exn OverflowError "timestamp too large to convert to C _PyTime_t")
      else Ret tt
  | PFloat f =>
      if PrimFloat.leb 0%float f then
        if PrimFloat.ltb 0x1p+63%float (PrimFloat.mul f 1e9%float) then
          Raise (Exn OverflowError "timestamp too large to convert to C _PyTime_t")
        else Ret tt
      else Raise (Exn ValueError "sleep length must be non-negative")
  | _ => Raise (Exn TypeError
                  (quote (type_name v) ++ " object cannot be interpreted as an integer"))
  end.

(** [str()] of the values whose text is not fixed here: floats, lists and
    mappings.  It is the interpreter's; nothing below depends on it. *)
Class PyRuntime : Type := { py_str : pyval -> string }.

Definition string_of_Z (z : Z) : string := NilZero.string_of_int (Z.to_int z).

(** The text an f-string substitutes for [{v}]. *)
Definition fmt {R : PyRuntime} (v : pyval) : string :=
  match v with
  | PNone => "None"
  | PBool true => "True"
  | PBool false => "False"
  | PInt z => string_of_Z z
  | PStr s => s
  | _ => py_str v
  end.

(* ================================================================== *)
(** * State and exceptions *)
(* ================================================================== *)

(** A computation over a state [S]: it returns the state it leaves and a
    value, or the state it leaves and the exception it raised. *)
Definition M (S A : Type) : Type := S -> S * outcome A.

Definition ret {S A : Type} (a : A) : M S A := fun s => (s, Ret a).

Definition raise {S A : Type} (e : exn) : M S A := fun s => (s, Raise e).

Definition bind {S A B : Type} (m : M S A) (k : A -> M S B) : M S B :=
  fun s =>
    match m s with
    | (s', Ret a) => k a s'
    | (s', Raise e) => (s', Raise e)
    end.

Definition lift {S A : Type} (o : outcome A) : M S A := fun s => (s, o).

Definition gets {S A : Type} (f : S -> A) : M S A := fun s => (s, Ret (f s)).

Definition modify {S : Type} (f : S -> S) : M S unit := fun s => (f s, Ret tt).

Declare Scope py_scope.
Delimit Scope py_scope with py.
Notation "x <- m ;; k" := (bind m (fun x => k))
  (at level 61, m at next level, right associativity) : py_scope.
Notation "m ;; k" := (bind m (fun _ => k))
  (at level 61, right associativity) : py_scope.
Open Scope py_scope.

(** One [except C as e: h] clause: the class test and the handler. *)
Definition clause (S A : Type) : Type := ((exn -> bool) * (exn -> M S A))%type.

(** The first clause whose class the exception is an instance of handles
    it; with none, the exception propagates. *)
Fixpoint dispatch {S A : Type} (clauses : list (clause S A)) (e : exn) : M S A :=
  match clauses with
  | [] => raise e
  | (test, handler) :: rest => if test e then handler e else dispatch rest e
  end.

(** [try: body  except ...: ...].  An exception raised inside a handler is
    not offered to the other clauses. *)
Definition try_except {S A : Type} (body : M S A) (clauses : list (clause S A))
  : M S A :=
  fun s =>
    match body s with
    | (s', Ret a) => (s', Ret a)
    | (s', Raise e) => dispatch clauses e s'
    end.

(* ================================================================== *)
(** * The login worker *)
(* ================================================================== *)

(** The arguments of [requests.post(login_url, data=, headers=, timeout=)]. *)
Record Request : Type := {
  req_url : pyval;
  req_data : pyval;
  req_headers : pyval;
  req_timeout : Z
}.

(** What the program reads of a response: [response.text], and
    [response.json()], which returns the parsed body or raises. *)
Record Response : Type := {
  text : string;
  json : outcome pyval
}.

(** [requests.post] as one call sees it: a response, or an exception. *)
Definition Network : Type := Request -> outcome Response.

(** One emission of [login_result = pyqtSignal(str, bool)]. *)
Definition Signal : Type := (string * bool)%type.

(** The worker's state is the list of signals it has emitted. *)
Definition Worker (A : Type) : Type := M (list Signal) A.

Definition emit (message : string) (success : bool) : Worker unit :=
  modify (fun emitted => (emitted ++ [(message, success)])%list).

(** [自动登录-V1.2.2.py], lines 13-66. *)
Module LoginWorker.

Definition get_login_data (config : pyval) : Worker pyval :=
  login <- lift (py_getitem config "Login") ;;
  opr <- lift (py_getitem login "opr") ;;
  login <- lift (py_getitem config "Login") ;;
  userName <- lift (py_getitem login "userName") ;;
  login <- lift (py_getitem config "Login") ;;
  pwd <- lift (py_getitem login "pwd") ;;
  login <- lift (py_getitem config "Login") ;;
  auth_tag <- lift (py_getitem login "auth_tag") ;;
  login <- lift (py_getitem config "Login") ;;
  rememberPwd <- lift (py_getitem login "rememberPwd") ;;
  ret (PDict [("opr", opr); ("userName", userName); ("pwd", pwd);
              ("auth_tag", auth_tag); ("rememberPwd", rememberPwd)]).

Definition get_headers (config : pyval) : Worker pyval :=
  lift (py_getitem config "Headers").

(** Lines 36-47: the inner [try], on the response received. *)
Definition classify {R : PyRuntime} (response : Response) : Worker unit :=
  try_except
    (result <- lift (json response) ;;
     success <- lift (py_get result "success" PNone) ;;
     if truthy success then
       msg <- lift (py_get result "msg" (PStr "")) ;;
       emit ("登录成功: " ++ fmt msg) true
     else
       msg <- lift (py_get result "msg" (PStr "未知错误")) ;;
       emit ("登录失败: " ++ fmt msg) false)
    [(is_ValueError,
      fun _ =>
        if contains "success" (lower (text response))
           || contains "logon success" (lower (text response))
        then emit "登录成功" true
        else emit ("登录响应: " ++ py_slice_to 100 (text response)) false)].

(** Lines 21-52. *)
Definition do_login {R : PyRuntime} (config : pyval) (post : Network)
  : Worker unit :=
  try_except
    (login <- lift (py_getitem config "Login") ;;
     login_url <- lift (py_getitem login "url") ;;
     login_data <- get_login_data config ;;
     headers <- get_headers config ;;
     response <- lift (post {| req_url := login_url;
                               req_data := login_data;
                               req_headers := headers;
                               req_timeout := 10 |}) ;;
     classify response)
    [(is_RequestException,
      fun e => emit ("连接失败: " ++ exn_str e) false);
     (is_Exception,
      fun e => emit ("错误: " ++ exn_str e) false)].

End LoginWorker.

(** [自动登录-V1.2.py], lines 13-66. *)
Module LoginWorker_V1_2.

Definition get_login_data (config : pyval) : Worker pyval :=
  login <- lift (py_getitem config "Login") ;;
  opr <- lift (py_getitem login "opr") ;;
  login <- lift (py_getitem config "Login") ;;
  userName <- lift (py_getitem login "userName") ;;
  login <- lift (py_getitem config "Login") ;;
  pwd <- lift (py_getitem login "pwd") ;;
  login <- lift (py_getitem config "Login") ;;
  auth_tag <- lift (py_getitem login "auth_tag") ;;
  login <- lift (py_getitem config "Login") ;;
  rememberPwd <- lift (py_getitem login "rememberPwd") ;;
  ret (PDict [("opr", opr); ("userName", userName); ("pwd", pwd);
              ("auth_tag", auth_tag); ("rememberPwd", rememberPwd)]).

Definition get_headers (config : pyval) : Worker pyval :=
  lift (py_getitem config "Headers").

Definition classify {R : PyRuntime} (response : Response) : Worker unit :=
  try_except
    (result <- lift (json response) ;;
     success <- lift (py_get result "success" PNone) ;;
     if truthy success then
       msg <- lift (py_get result "msg" (PStr "")) ;;
       emit ("登录成功: " ++ fmt msg) true
     else
       msg <- lift (py_get result "msg" (PStr "未知错误")) ;;
       emit ("登录失败: " ++ fmt msg) false)
    [(is_ValueError,
      fun _ =>
        if contains "success" (lower (text response))
           || contains "logon success" (lower (text response))
        then emit "登录成功" true
        else emit ("登录响应: " ++ py_slice_to 100 (text response)) false)].

Definition do_login {R : PyRuntime} (config : pyval) (post : Network)
  : Worker unit :=
  try_except
    (login <- lift (py_getitem config "Login") ;;
     login_url <- lift (py_getitem login "url") ;;
     login_data <- get_login_data config ;;
     headers <- get_headers config ;;
     response <- lift (post {| req_url := login_url;
                               req_data := login_data;
                               req_headers := headers;
                               req_timeout := 10 |}) ;;
     classify response)
    [(is_RequestException,
      fun e => emit ("连接失败: " ++ exn_str e) false);
     (is_Exception,
      fun e => emit ("错误: " ++ exn_str e) false)].

End LoginWorker_V1_2.

(** The signals a worker thread emits from start to end, and whether an
    exception escaped [do_login]. *)
Definition run_worker {R : PyRuntime} (config : pyval) (post : Network)
  : list Signal * outcome unit :=
  LoginWorker.do_login config post [].

(* ================================================================== *)
(** * The network monitor *)
(* ================================================================== *)

(** [requests.get(test_url, timeout=test_timeout)] as one call sees it: the
    status code of the response, or an exception. *)
Definition Probe : Type := pyval -> pyval -> outcome Z.

(** A [NetworkMonitor]: its attributes, the statuses it has emitted on
    [network_status = pyqtSignal(bool)] and the arguments of the calls of
    [time.sleep] that have returned. *)
Record Monitor : Type := {
  monitor_config : pyval;
  running : bool;
  network_status : list bool;
  slept : list pyval
}.

(** What one pass of the loop meets: the network, and whether another
    thread calls [stop()] before the pass ends. *)
Record Cycle : Type := {
  cycle_get : Probe;
  stop_requested : bool
}.

(** [自动登录-V1.2.2.py], lines 68-93 (the same text in V1.2).  The
    configuration object is taken not to change while the passes observed
    run. *)
Module NetworkMonitor.

(** Lines 72-75. *)
Definition init (config : pyval) : Monitor :=
  {| monitor_config := config; running := true; network_status := []; slept := [] |}.

Definition emit_status (status : bool) : M Monitor unit :=
  modify (fun m => {| monitor_config := monitor_config m;
                      running := running m;
                      network_status := (network_status m ++ [status])%list;
                      slept := slept m |}).

(** Lines 77-79. *)
Definition stop : M Monitor unit :=
  modify (fun m => {| monitor_config := monitor_config m;
                      running := false;
                      network_status := network_status m;
                      slept := slept m |}).

Definition sleep (seconds : pyval) : M Monitor unit :=
  lift (py_sleep seconds) ;;
  modify (fun m => {| monitor_config := monitor_config m;
                      running := running m;
                      network_status := network_status m;
                      slept := (slept m ++ [seconds])%list |}).

(** [self.config['Settings'].get(key, default)]. *)
Definition setting (key : string) (default : pyval) : M Monitor pyval :=
  cfg <- gets monitor_config ;;
  settings <- lift (py_getitem cfg "Settings") ;;
  lift (py_get settings key default).

(** Lines 84-93: one pass of the loop body.  The bare [except] catches
    every exception. *)
Definition cycle (get : Probe) : M Monitor unit :=
  try_except
    (test_url <- setting "test_url" (PStr "http://www.baidu.com") ;;
     test_timeout <- setting "test_timeout" (PInt 5) ;;
     status_code <- lift (get test_url test_timeout) ;;
     emit_status (status_code =? 200))
    [(fun _ => true, fun _ => emit_status false)] ;;
  interval <- setting "check_interval" (PInt 60) ;;
  sleep interval.

(** Lines 81-93: [while self.running], over the passes observed. *)
Fixpoint run (cycles : list Cycle) : M Monitor unit :=
  match cycles with
  | [] => ret tt
  | c :: rest =>
      is_running <- gets running ;;
      if is_running then
        cycle (cycle_get c) ;;
        (if stop_requested c then stop else ret tt) ;;
        run rest
      else ret tt
  end.

End NetworkMonitor.

(* ================================================================== *)
(** * The application *)
(* ================================================================== *)

Inductive icon : Type := Information | Warning.

(** Calls into the presentation shell and the file system. *)
Inductive action : Type :=
| LogAppend (message : string)
    (** [self.log_text.append], the entry after its timestamp *)
| TrayShowMessage (title message : string) (i : icon) (msecs : Z)
| MessageBoxWarning (title message : string)
| CbSetChecked (checked : bool)
| CbSetEnabled (enabled : bool)
| CbSetToolTip (tip : string)
| ForcedAutoLabelSetText (s : string)
| IntervalSpinSetValue (v : pyval)
| PeriodicIntervalSpinSetValue (v : pyval)
| UsernameLabelSetText (s : string)
| NextPeriodicLabelSetText (offset : option pyval)
    (** ["下次: "] and the clock time [offset] seconds from now, or [""] *)
| YamlDump (config : pyval)
    (** [save_config]: the file is overwritten with [config] *).

(** The attributes of [NetworkLoginApp] that its slots read or write. *)
Record App : Type := {
  config : pyval;
  auto_reconnect : pyval;
  check_interval : pyval;
  periodic_login_interval : pyval;
  forced_auto_reconnect : pyval;
  (** the [QTimer]: [Some ms] while active with interval [ms], else [None] *)
  periodic_login_timer : option Z;
  (** the worker threads started and not yet finished, each by the
      configuration its [LoginWorker] was constructed with.  A worker reads
      only the [Login] and [Headers] sections, which no slot assigns to. *)
  login_threads : list pyval;
  (** [self.auto_reconnect_cb.isChecked()] *)
  auto_reconnect_cb : bool;
  config_last_modified : Z;
  shell : list action
}.

Definition set_config (v : pyval) (st : App) : App :=
  {| config := v; auto_reconnect := auto_reconnect st;
     check_interval := check_interval st;
     periodic_login_interval := periodic_login_interval st;
     forced_auto_reconnect := forced_auto_reconnect st;
     periodic_login_timer := periodic_login_timer st;
     login_threads := login_threads st;
     auto_reconnect_cb := auto_reconnect_cb st;
     config_last_modified := config_last_modified st; shell := shell st |}.

Definition set_auto_reconnect (v : pyval) (st : App) : App :=
  {| config := config st; auto_reconnect := v;
     check_interval := check_interval st;
     periodic_login_interval := periodic_login_interval st;
     forced_auto_reconnect := forced_auto_reconnect st;
     periodic_login_timer := periodic_login_timer st;
     login_threads := login_threads st;
     auto_reconnect_cb := auto_reconnect_cb st;
     config_last_modified := config_last_modified st; shell := shell st |}.

Definition set_check_interval (v : pyval) (st : App) : App :=
  {| config := config st; auto_reconnect := auto_reconnect st;
     check_interval := v;
     periodic_login_interval := periodic_login_interval st;
     forced_auto_reconnect := forced_auto_reconnect st;
     periodic_login_timer := periodic_login_timer st;
     login_threads := login_threads st;
     auto_reconnect_cb := auto_reconnect_cb st;
     config_last_modified := config_last_modified st; shell := shell st |}.

Definition set_periodic_login_interval (v : pyval) (st : App) : App :=
  {| config := config st; auto_reconnect := auto_reconnect st;
     check_interval := check_interval st;
     periodic_login_interval := v;
     forced_auto_reconnect := forced_auto_reconnect st;
     periodic_login_timer := periodic_login_timer st;
     login_threads := login_threads st;
     auto_reconnect_cb := auto_reconnect_cb st;
     config_last_modified := config_last_modified st; shell := shell st |}.

Definition set_forced_auto_reconnect (v : pyval) (st : App) : App :=
  {| config := config st; auto_reconnect := auto_reconnect st;
     check_interval := check_interval st;
     periodic_login_interval := periodic_login_interval st;
     forced_auto_reconnect := v;
     periodic_login_timer := periodic_login_timer st;
     login_threads := login_threads st;
     auto_reconnect_cb := auto_reconnect_cb st;
     config_last_modified := config_last_modified st; shell := shell st |}.

Definition set_periodic_login_timer (t : option Z) (st : App) : App :=
  {| config := config st; auto_reconnect := auto_reconnect st;
     check_interval := check_interval st;
     periodic_login_interval := periodic_login_interval st;
     forced_auto_reconnect := forced_auto_reconnect st;
     periodic_login_timer := t;
     login_threads := login_threads st;
     auto_reconnect_cb := auto_reconnect_cb st;
     config_last_modified := config_last_modified st; shell := shell st |}.

Definition set_login_threads (ts : list pyval) (st : App) : App :=
  {| config := config st; auto_reconnect := auto_reconnect st;
     check_interval := check_interval st;
     periodic_login_interval := periodic_login_interval st;
     forced_auto_reconnect := forced_auto_reconnect st;
     periodic_login_timer := periodic_login_timer st;
     login_threads := ts;
     auto_reconnect_cb := auto_reconnect_cb st;
     config_last_modified := config_last_modified st; shell := shell st |}.

Definition set_auto_reconnect_cb (b : bool) (st : App) : App :=
  {| config := config st; auto_reconnect := auto_reconnect st;
     check_interval := check_interval st;
     periodic_login_interval := periodic_login_interval st;
     forced_auto_reconnect := forced_auto_reconnect st;
     periodic_login_timer := periodic_login_timer st;
     login_threads := login_threads st;
     auto_reconnect_cb := b;
     config_last_modified := config_last_modified st; shell := shell st |}.

Definition set_config_last_modified (m : Z) (st : App) : App :=
  {| config := config st; auto_reconnect := auto_reconnect st;
     check_interval := check_interval st;
     periodic_login_interval := periodic_login_interval st;
     forced_auto_reconnect := forced_auto_reconnect st;
     periodic_login_timer := periodic_login_timer st;
     login_threads := login_threads st;
     auto_reconnect_cb := auto_reconnect_cb st;
     config_last_modified := m; shell := shell st |}.

Definition set_shell (l : list action) (st : App) : App :=
  {| config := config st; auto_reconnect := auto_reconnect st;
     check_interval := check_interval st;
     periodic_login_interval := periodic_login_interval st;
     forced_auto_reconnect := forced_auto_reconnect st;
     periodic_login_timer := periodic_login_timer st;
     login_threads := login_threads st;
     auto_reconnect_cb := auto_reconnect_cb st;
     config_last_modified := config_last_modified st; shell := l |}.

(** What reading the configuration file yields at one moment:
    [yaml.safe_load] of its content and [os.path.getmtime]. *)
Record FileRead : Type := {
  loaded : outcome pyval;
  mtime : outcome Z
}.

(** [QTimer.start(msec)] on the periodic timer: (re)starts it with the
    interval given, which must fit a C [int]. *)
Definition timer_start (msec : pyval) : M App unit :=
  match msec with
  | PInt ms =>
      if (ms <=? 2147483647) && (-2147483648 <=? ms) then
        modify (set_periodic_login_timer (if 0 <=? ms then Some ms else None))
      else
        raise (Exn OverflowError
                 "argument 1 overflowed: value must be in the range -2147483648 to 2147483647")
  | PBool b => modify (set_periodic_login_timer (Some (if b then 1 else 0)))
  | _ =>
      raise (Exn TypeError
               ("start(self, msec: int): argument 1 has unexpected type "
                  ++ quote (type_name msec)))
  end.

(** [QTimer.stop()]. *)
Definition timer_stop : M App unit := modify (set_periodic_login_timer None).

Fixpoint remove_nth {A : Type} (i : nat) (l : list A) : list A :=
  match l, i with
  | [], _ => []
  | _ :: l', O => l'
  | x :: l', S i' => x :: remove_nth i' l'
  end.

(** [自动登录-V1.2.2.py], lines 95-631. *)
Module NetworkLoginApp.

Definition act (a : action) : M App unit :=
  modify (fun st => set_shell (shell st ++ [a])%list st).

(** Lines 609-613. *)
Definition log (message : string) : M App unit := act (LogAppend message).

(** Lines 212-215. *)
Definition save_config : M App unit :=
  cfg <- gets config ;;
  act (YamlDump cfg).

(** [self.auto_reconnect_cb.setChecked(v)]. *)
Definition cb_setChecked (v : pyval) : M App unit :=
  modify (set_auto_reconnect_cb (truthy v)) ;;
  act (CbSetChecked (truthy v)).

(** [self.config['Settings'][key] = v]. *)
Definition config_settings_assign (key : string) (v : pyval) : M App unit :=
  cfg <- gets config ;;
  settings <- lift (py_getitem cfg "Settings") ;;
  settings' <- lift (py_setitem settings key v) ;;
  cfg' <- lift (py_setitem cfg "Settings" settings') ;;
  modify (set_config cfg').

(** [self.config['Settings'].get(key, default)]. *)
Definition config_settings_get (key : string) (default : pyval) : M App pyval :=
  cfg <- gets config ;;
  settings <- lift (py_getitem cfg "Settings") ;;
  lift (py_get settings key default).

(** [self.config['Login'][key]]. *)
Definition config_login (key : string) : M App pyval :=
  cfg <- gets config ;;
  login <- lift (py_getitem cfg "Login") ;;
  lift (py_getitem login key).

(** Lines 437-443. *)
Definition update_next_periodic_time {R : PyRuntime} : M App unit :=
  interval <- gets periodic_login_interval ;;
  positive <- lift (py_gt0 interval) ;;
  if positive then
    interval <- gets periodic_login_interval ;;
    act (NextPeriodicLabelSetText (Some interval))
  else
    act (NextPeriodicLabelSetText None).

(** Lines 420-429. *)
Definition update_periodic_timer {R : PyRuntime} : M App unit :=
  interval <- gets periodic_login_interval ;;
  positive <- lift (py_gt0 interval) ;;
  if positive then
    interval <- gets periodic_login_interval ;;
    msec <- lift (py_mul_1000 interval) ;;
    timer_start msec ;;
    interval <- gets periodic_login_interval ;;
    log ("定期登录已启用，间隔: " ++ fmt interval ++ "秒") ;;
    update_next_periodic_time
  else
    timer_stop ;;
    log "定期登录已关闭" ;;
    act (NextPeriodicLabelSetText None).

(** Lines 462-465: the refusal. *)
Definition refuse_unconfigured : M App unit :=
  log "错误: 请先编辑配置文件，填写正确的登录信息" ;;
  act (TrayShowMessage "配置错误" "请先编辑配置文件填写登录信息" Warning 5000).

(** Lines 467-471: a [LoginWorker] on the current configuration, started
    on a thread of its own. *)
Definition start_login_thread : M App unit :=
  cfg <- gets config ;;
  modify (fun st => set_login_threads (login_threads st ++ [cfg])%list st).

(** Lines 456-471.  The three tests of the [or] are evaluated left to
    right, and only as far as the first that holds. *)
Definition do_login : M App unit :=
  userName <- config_login "userName" ;;
  if py_eq_str userName "YOUR_USERNAME" then refuse_unconfigured
  else
    pwd <- config_login "pwd" ;;
    if py_eq_str pwd "YOUR_PASSWORD" then refuse_unconfigured
    else
      url <- config_login "url" ;;
      placeholder <- lift (py_in "YOUR_LOGIN_SERVER" url) ;;
      if placeholder then refuse_unconfigured
      else start_login_thread.

(** Lines 431-435. *)
Definition periodic_login {R : PyRuntime} : M App unit :=
  interval <- gets periodic_login_interval ;;
  log ("执行定期登录（间隔: " ++ fmt interval ++ "秒）...") ;;
  do_login ;;
  update_next_periodic_time.

(** Lines 445-449. *)
Definition on_network_status_changed (status : bool) : M App unit :=
  auto <- gets auto_reconnect ;;
  if negb status && truthy auto then
    log "检测到网络不可用，尝试登录..." ;;
    do_login
  else ret tt.

(** Lines 451-454. *)
Definition manual_login : M App unit :=
  log "执行手动登录..." ;;
  do_login.

(** Lines 473-480. *)
Definition on_login_result (message : string) (success : bool) : M App unit :=
  if success then
    log ("✓ " ++ message) ;;
    act (TrayShowMessage "登录成功" message Information 3000)
  else
    log ("✗ " ++ message) ;;
    act (TrayShowMessage "登录失败" message Warning 5000).

(** Lines 482-501.  [checked] is [None] by default, a [bool] from the tray
    action, an [int] from the check box. *)
Definition toggle_auto_reconnect (checked : pyval) : M App unit :=
  forced <- gets forced_auto_reconnect ;;
  if truthy forced then
    cb_setChecked (PBool true) ;;
    log "自动重连已被配置文件锁定，无法修改"
  else
    match checked with
    | PBool _ => modify (set_auto_reconnect checked)
    | _ =>
        is_checked <- gets auto_reconnect_cb ;;
        modify (set_auto_reconnect (PBool is_checked))
    end ;;
    auto <- gets auto_reconnect ;;
    config_settings_assign "auto_reconnect" auto ;;
    save_config ;;
    auto <- gets auto_reconnect ;;
    log ("自动重连已" ++ (if truthy auto then "开启" else "关闭")).

(** Lines 503-509. *)
Definition update_check_interval {R : PyRuntime} (interval : Z) : M App unit :=
  modify (set_check_interval (PInt interval)) ;;
  config_settings_assign "check_interval" (PInt interval) ;;
  save_config ;;
  log ("网络检查间隔已更新为 " ++ fmt (PInt interval) ++ " 秒").

(** Lines 511-522. *)
Definition update_periodic_login_interval {R : PyRuntime} (interval : Z)
  : M App unit :=
  modify (set_periodic_login_interval (PInt interval)) ;;
  config_settings_assign "periodic_login_interval" (PInt interval) ;;
  save_config ;;
  (if 0 <? interval then
     log ("定期登录间隔已更新为 " ++ fmt (PInt interval) ++ " 秒")
   else
     log "定期登录已关闭") ;;
  update_periodic_timer.

(** Lines 539-586. *)
Definition reload_config {R : PyRuntime} (file : FileRead) : M App unit :=
  try_except
    (new_config <- lift (loaded file) ;;
     modify (set_config new_config) ;;
     auto <- config_settings_get "auto_reconnect" (PBool true) ;;
     modify (set_auto_reconnect auto) ;;
     check <- config_settings_get "check_interval" (PInt 60) ;;
     modify (set_check_interval check) ;;
     periodic <- config_settings_get "periodic_login_interval" (PInt 0) ;;
     modify (set_periodic_login_interval periodic) ;;
     forced <- config_settings_get "forced_auto_reconnect" (PBool false) ;;
     modify (set_forced_auto_reconnect forced) ;;
     forced <- gets forced_auto_reconnect ;;
     (if truthy forced then
        modify (set_auto_reconnect (PBool true)) ;;
        act (CbSetEnabled false) ;;
        act (CbSetToolTip "强制自动重连已开启，只能通过配置文件修改") ;;
        act (ForcedAutoLabelSetText "强制自动重连")
      else
        act (CbSetEnabled true) ;;
        act (CbSetToolTip "") ;;
        act (ForcedAutoLabelSetText "")) ;;
     auto <- gets auto_reconnect ;;
     cb_setChecked auto ;;
     check <- gets check_interval ;;
     act (IntervalSpinSetValue check) ;;
     periodic <- gets periodic_login_interval ;;
     act (PeriodicIntervalSpinSetValue periodic) ;;
     cfg <- gets config ;;
     login <- lift (py_getitem cfg "Login") ;;
     username <- lift (py_get login "userName" (PStr "未设置")) ;;
     act (UsernameLabelSetText ("用户: " ++ fmt username)) ;;
     update_periodic_timer ;;
     modified <- lift (mtime file) ;;
     modify (set_config_last_modified modified) ;;
     log "配置文件已重新加载" ;;
     act (TrayShowMessage "配置更新" "配置文件已重新加载" Information 3000))
    [(is_Exception,
      fun e =>
        log ("重新加载配置文件失败: " ++ exn_str e) ;;
        act (MessageBoxWarning "配置加载错误"
               ("重新加载配置文件失败: " ++ exn_str e)))].

(** Lines 597-607. *)
Definition check_config_update {R : PyRuntime} (file : FileRead) : M App unit :=
  try_except
    (current_modified <- lift (mtime file) ;;
     last <- gets config_last_modified ;;
     if negb (current_modified =? last) then
       modify (set_config_last_modified current_modified) ;;
       log "检测到配置文件已修改，正在重新加载..." ;;
       reload_config file
     else ret tt)
    [(is_Exception, fun _ => ret tt)].

(** The attributes before [__init__] has assigned them. *)
Definition blank : App :=
  {| config := PDict []; auto_reconnect := PNone; check_interval := PNone;
     periodic_login_interval := PNone; forced_auto_reconnect := PNone;
     periodic_login_timer := None; login_threads := [];
     auto_reconnect_cb := false; config_last_modified := 0; shell := [] |}.

(** Lines 96-131, with [init_ui] (217-338) and
    [start_periodic_login_timer] (414-418) in place. *)
Definition init {R : PyRuntime} (file : FileRead) : M App unit :=
  cfg <- lift (loaded file) ;;
  modify (set_config cfg) ;;
  auto <- config_settings_get "auto_reconnect" (PBool true) ;;
  modify (set_auto_reconnect auto) ;;
  check <- config_settings_get "check_interval" (PInt 60) ;;
  modify (set_check_interval check) ;;
  periodic <- config_settings_get "periodic_login_interval" (PInt 0) ;;
  modify (set_periodic_login_interval periodic) ;;
  forced <- config_settings_get "forced_auto_reconnect" (PBool false) ;;
  modify (set_forced_auto_reconnect forced) ;;
  forced <- gets forced_auto_reconnect ;;
  (if truthy forced then modify (set_auto_reconnect (PBool true)) else ret tt) ;;
  auto <- gets auto_reconnect ;;
  cb_setChecked auto ;;
  forced <- gets forced_auto_reconnect ;;
  (if truthy forced then
     act (CbSetEnabled false) ;;
     act (CbSetToolTip "强制自动重连已开启，只能通过配置文件修改") ;;
     act (ForcedAutoLabelSetText "强制自动重连")
   else ret tt) ;;
  check <- gets check_interval ;;
  act (IntervalSpinSetValue check) ;;
  periodic <- gets periodic_login_interval ;;
  act (PeriodicIntervalSpinSetValue periodic) ;;
  update_next_periodic_time ;;
  cfg <- gets config ;;
  login <- lift (py_getitem cfg "Login") ;;
  username <- lift (py_get login "userName" (PStr "未设置")) ;;
  act (UsernameLabelSetText ("用户: " ++ fmt username)) ;;
  update_periodic_timer ;;
  modified <- lift (mtime file) ;;
  modify (set_config_last_modified modified).

End NetworkLoginApp.

(* ================================================================== *)
(** * Events *)
(* ================================================================== *)

(** What the Qt event loop delivers to the application, one at a time, on
    the main thread. *)
Inductive event : Type :=
| LoginClicked
    (** the login button or the tray's login action *)
| NetworkStatus (status : bool)
    (** [NetworkMonitor.network_status] *)
| PeriodicTimeout
    (** [periodic_login_timer.timeout] *)
| LoginThreadDone (i : nat) (post : Network)
    (** the [i]-th running worker meets [post] and its signal is delivered *)
| AutoReconnectTriggered (checked : bool)
    (** the tray's auto-reconnect action, [triggered(bool)] *)
| CheckboxToggled (checked : bool)
    (** a click on the check box, [stateChanged(int)] *)
| IntervalSpinChanged (value : Z)
| PeriodicIntervalSpinChanged (value : Z)
| ReloadClicked (file : FileRead)
| ConfigMonitorTimeout (file : FileRead).

(** A stopped timer does not time out; a thread is done once; a spin box
    reports values of its range (lines 289 and 301).  Whether a widget is
    disabled is not tracked: a click on the check box stays possible, which
    only adds runs. *)
Definition enabled (ev : event) (st : App) : bool :=
  match ev with
  | PeriodicTimeout =>
      match periodic_login_timer st with Some _ => true | None => false end
  | LoginThreadDone i _ => (i <? List.length (login_threads st))%nat
  | IntervalSpinChanged v => (10 <=? v) && (v <=? 3600)
  | PeriodicIntervalSpinChanged v => (0 <=? v) && (v <=? 86400)
  | _ => true
  end.

Fixpoint deliver (signals : list Signal) : M App unit :=
  match signals with
  | [] => ret tt
  | (message, success) :: rest =>
      NetworkLoginApp.on_login_result message success ;;
      deliver rest
  end.

Definition handle {R : PyRuntime} (ev : event) : M App unit :=
  match ev with
  | LoginClicked => NetworkLoginApp.manual_login
  | NetworkStatus status => NetworkLoginApp.on_network_status_changed status
  | PeriodicTimeout => NetworkLoginApp.periodic_login
  | LoginThreadDone i post =>
      threads <- gets login_threads ;;
      match nth_error threads i with
      | Some cfg =>
          modify (set_login_threads (remove_nth i threads)) ;;
          deliver (fst (run_worker cfg post))
      | None => ret tt
      end
  | AutoReconnectTriggered checked =>
      NetworkLoginApp.toggle_auto_reconnect (PBool checked)
  | CheckboxToggled checked =>
      modify (set_auto_reconnect_cb checked) ;;
      NetworkLoginApp.toggle_auto_reconnect (PInt (if checked then 2 else 0))
  | IntervalSpinChanged v => NetworkLoginApp.update_check_interval v
  | PeriodicIntervalSpinChanged v => NetworkLoginApp.update_periodic_login_interval v
  | ReloadClicked file => NetworkLoginApp.reload_config file
  | ConfigMonitorTimeout file => NetworkLoginApp.check_config_update file
  end.

(** The state a slot leaves, whether it returned or raised. *)
Definition step {R : PyRuntime} (st : App) (ev : event) : App :=
  fst (handle ev st).

Definition run {R : PyRuntime} (st : App) (evs : list event) : App :=
  fold_left step evs st.

(** [steps st evs st']: the events [evs] can occur in this order from [st],
    and lead to [st']. *)
Inductive steps {R : PyRuntime} : App -> list event -> App -> Prop :=
| steps_nil : forall st, steps st [] st
| steps_cons : forall st ev evs st',
    enabled ev st = true ->
    steps (step st ev) evs st' ->
    steps st (ev :: evs) st'.

(** The states of a running application. *)
Inductive reachable {R : PyRuntime} : App -> Prop :=
| reachable_init : forall file st,
    NetworkLoginApp.init file NetworkLoginApp.blank = (st, Ret tt) ->
    reachable st
| reachable_step : forall st ev,
    reachable st -> enabled ev st = true -> reachable (step st ev).

(** Every event of [evs] is enabled when its turn comes. *)
Fixpoint admissible {R : PyRuntime} (st : App) (evs : list event) : bool :=
  match evs with
  | [] => true
  | ev :: evs' => enabled ev st && admissible (step st ev) evs'
  end.

(** The number of login attempts in flight. *)
Definition in_flight (st : App) : nat := List.length (login_threads st).

(** What [on_network_status_changed] consults. *)
Definition effective_auto_reconnect (st : App) : bool := truthy (auto_reconnect st).

(** Lines 143-201: the configuration [create_default_config] writes. *)
Definition default_config : pyval :=
  PDict
    [("Login",
      PDict [("url", PStr "http://YOUR_LOGIN_SERVER_URL/ac_portal/login.php");
             ("opr", PStr "pwdLogin");
             ("userName", PStr "YOUR_USERNAME");
             ("pwd", PStr "YOUR_PASSWORD");
             ("auth_tag", PStr "TIMESTAMP");
             ("rememberPwd", PStr "0")]);
     ("Headers",
      PDict [("Accept", PStr "*/*");
             ("Accept-Encoding", PStr "gzip, deflate");
             ("Accept-Language", PStr "zh-CN,zh;q=0.9,en;q=0.8");
             ("Cache-Control", PStr "no-cache");
             ("Connection", PStr "keep-alive");
             ("Content-Type", PStr "application/x-www-form-urlencoded; charset=UTF-8");
             ("Cookie", PStr "YOUR_ACTUAL_COOKIE");
             ("DNT", PStr "1");
             ("Host", PStr "YOUR_LOGIN_SERVER_HOST");
             ("Origin", PStr "http://YOUR_LOGIN_SERVER_HOST");
             ("Pragma", PStr "no-cache");
             ("Referer", PStr "YOUR_LOGIN_PAGE_URL");
             ("User-Agent",
              PStr "Mozilla/5.0 (Windows NT 10.0; Win64; x64) AppleWebKit/537.36");
             ("X-Requested-With", PStr "XMLHttpRequest")]);
     ("Settings",
      PDict [("auto_reconnect", PBool true);
             ("check_interval", PInt 60);
             ("test_url", PStr "http://www.baidu.com");
             ("test_timeout", PInt 5);
             ("periodic_login_interval", PInt 0);
             ("forced_auto_reconnect", PBool false)])].

(** A configuration a user has filled in: the default one with the three
    placeholders of the [Login] section replaced, and the settings given. *)
Definition campus_config (settings : list (string * pyval)) : pyval :=
  PDict
    [("Login",
      PDict [("url", PStr "http://10.0.0.1/ac_portal/login.php");
             ("opr", PStr "pwdLogin");
             ("userName", PStr "alice");
             ("pwd", PStr "s3cret");
             ("auth_tag", PStr "1700000000");
             ("rememberPwd", PStr "0")]);
     ("Headers", PDict [("Accept", PStr "*/*")]);
     ("Settings", PDict settings)].

(** A runtime for evaluating examples: every value the examples format is
    a string or an integer, so the text chosen here is never printed. *)
Definition example_runtime : PyRuntime := {| py_str := fun v => type_name v |}.

(* ================================================================== *)
(** * Vocabulary of the statements *)
(* ================================================================== *)

(** The request [LoginWorker.do_login] posts for [config] (lines 24-33),
    or the exception raised while it reads the configuration. *)
Definition request_of (config : pyval) : outcome Request :=
  snd ((login <- lift (py_getitem config "Login") ;;
        login_url <- lift (py_getitem login "url") ;;
        login_data <- LoginWorker.get_login_data config ;;
        headers <- LoginWorker.get_headers config ;;
        ret {| req_url := login_url;
               req_data := login_data;
               req_headers := headers;
               req_timeout := 10 |}) ([] : list Signal)).

(** The signal of the two outer [except] clauses (lines 49-52). *)
Definition failure_signal (e : exn) : Signal :=
  ((if is_RequestException e then "连接失败: " else "错误: ") ++ exn_str e, false).

(** [config['Login'][key]]. *)
Definition login_field (config : pyval) (key : string) : outcome pyval :=
  match py_getitem config "Login" with
  | Ret login => py_getitem login key
  | Raise e => Raise e
  end.

(** [config['Settings'].get(key, default)]. *)
Definition settings_field (config : pyval) (key : string) (default : pyval)
  : outcome pyval :=
  match py_getitem config "Settings" with
  | Ret settings => py_get settings key default
  | Raise e => Raise e
  end.

(** The guard of [NetworkLoginApp.do_login] (lines 459-461) evaluates
    and finds no placeholder. *)
Definition credentials_configured (config : pyval) : Prop :=
  exists userName pwd url,
    login_field config "userName" = Ret userName
    /\ login_field config "pwd" = Ret pwd
    /\ login_field config "url" = Ret url
    /\ py_eq_str userName "YOUR_USERNAME" = false
    /\ py_eq_str pwd "YOUR_PASSWORD" = false
    /\ py_in "YOUR_LOGIN_SERVER" url = Ret false.

(** The guard finds one of the placeholders of the default configuration,
    all three fields being present. *)
Definition credentials_placeholder (config : pyval) : Prop :=
  exists userName pwd url,
    login_field config "userName" = Ret userName
    /\ login_field config "pwd" = Ret pwd
    /\ login_field config "url" = Ret url
    /\ (userName = PStr "YOUR_USERNAME"
        \/ pwd = PStr "YOUR_PASSWORD"
        \/ url = PStr "http://YOUR_LOGIN_SERVER_URL/ac_portal/login.php").


(** The events that call [NetworkLoginApp.do_login]: a manual request, a
    failed probe while auto-reconnect is on, the periodic timer. *)
Definition is_trigger (ev : event) (st : App) : bool :=
  match ev with
  | LoginClicked => true
  | NetworkStatus status => negb status && effective_auto_reconnect st
  | PeriodicTimeout => true
  | _ => false
  end.


(** What a refused login leaves behind (lines 462-464). *)
Definition refusal : list action :=
  [LogAppend "错误: 请先编辑配置文件，填写正确的登录信息";
   TrayShowMessage "配置错误" "请先编辑配置文件填写登录信息" Warning 5000].

(** The report of a rejected toggle (lines 486-487). *)
Definition toggle_rejection : list action :=
  [CbSetChecked true; LogAppend "自动重连已被配置文件锁定，无法修改"].

(** [m] leaves the observation [f] of the state as it found it, whether it
    returns or raises. *)
Definition preserves {S A X : Type} (f : S -> X) (m : M S A) : Prop :=
  forall s, f (fst (m s)) = f s.

(** The attributes that decide whether auto-reconnect is locked. *)
Definition lock_attributes (st : App) : pyval * pyval :=
  (auto_reconnect st, forced_auto_reconnect st).

(** [forced_auto_reconnect] holds [auto_reconnect] at [True]. *)
Definition locked (st : App) : Prop :=
  truthy (forced_auto_reconnect st) = true -> auto_reconnect st = PBool true.

(** ** The specification's login outcome

    The two definitions below follow the words of the specification
    (sections 3 and 4.2), not the program; they are what the program's
    classification is compared with. *)

Inductive LoginOutcome : Type :=
| Success (message : string)
| Failure (message : string)
| TransportError (message : string).

Definition is_Success (o : LoginOutcome) : bool :=
  match o with Success _ => true | _ => false end.

(** Rule 2 of the specification: the text of the body. *)
Definition spec_text_rule (body : string) : LoginOutcome :=
  if contains "success" (lower body) || contains "logon success" (lower body)
  then Success "login succeeded"
  else Failure (py_slice_to 100 body).

(** The specification's ordered policy: rule 1 when the body parses as
    structured data with a [success] field, rule 2 otherwise. *)
Definition spec_classify {R : PyRuntime} (response : Response) : LoginOutcome :=
  match json response with
  | Ret (PDict fields) =>
      match assoc "success" fields with
      | Some success =>
          if truthy success then
            Success (match assoc "msg" fields with Some m => fmt m | None => "" end)
          else
            Failure (match assoc "msg" fields with
                     | Some m => fmt m
                     | None => "unknown error"
                     end)
      | None => spec_text_rule (text response)
      end
  | _ => spec_text_rule (text response)
  end.

(** The tag of the program's result type [pyqtSignal(str, bool)]. *)
Definition tag (s : Signal) : bool := snd s.

(** [fields.get(key, default)] on the entries of a mapping. *)
Definition field_or (fields : list (string * pyval)) (key : string) (default : pyval)
  : pyval :=
  match assoc key fields with
  | Some x => x
  | None => default
  end.

(** ** Vocabulary of the further properties *)


(** What [on_login_result] shows for a result (lines 475-480). *)
Definition report (message : string) (success : bool) : list action :=
  if success then
    [LogAppend ("✓ " ++ message);
     TrayShowMessage "登录成功" message Information 3000]
  else
    [LogAppend ("✗ " ++ message);
     TrayShowMessage "登录失败" message Warning 5000].

(** What the request of a login attempt is built from: the [Login] and
    [Headers] sections. *)
Definition request_sections (st : App) : outcome pyval * outcome pyval :=
  (py_getitem (config st) "Login", py_getitem (config st) "Headers").

(** The settings that [reload_config] and [__init__] read (lines 106-113
    and 549-556), with their defaults, from the entries of [Settings]. *)
Definition forced_setting (settings : list (string * pyval)) : pyval :=
  field_or settings "forced_auto_reconnect" (PBool false).

Definition auto_setting (settings : list (string * pyval)) : pyval :=
  if truthy (forced_setting settings) then PBool true
  else field_or settings "auto_reconnect" (PBool true).


(** The probe of a pass succeeds: both settings are read, and the GET
    returns status 200. *)
Definition probe_ok (config : pyval) (get : Probe) : Prop :=
  exists test_url test_timeout,
    settings_field config "test_url" (PStr "http://www.baidu.com") = Ret test_url
    /\ settings_field config "test_timeout" (PInt 5) = Ret test_timeout
    /\ get test_url test_timeout = Ret 200.

(** ** Inputs of the examples *)

Definition double_quote : string := String (ascii_of_nat 34) EmptyString.

Definition quoted (s : string) : string := double_quote ++ s ++ double_quote.

Definition portal_config : pyval :=
  campus_config [("auto_reconnect", PBool true);
                 ("check_interval", PInt 60);
                 ("periodic_login_interval", PInt 3600);
                 ("forced_auto_reconnect", PBool false)].

Definition forced_config : pyval :=
  campus_config [("auto_reconnect", PBool false);
                 ("forced_auto_reconnect", PBool true)].

Definition file_of (cfg : pyval) : FileRead := {| loaded := Ret cfg; mtime := Ret 1700000000 |}.

(** The application after [__init__] on a configuration file. *)
Definition started {R : PyRuntime} (cfg : pyval) : App :=
  fst (NetworkLoginApp.init (file_of cfg) NetworkLoginApp.blank).

(** A network on which every request meets [response]. *)
Definition answering (response : Response) : Network := fun _ => Ret response.

(** A network on which every request fails with [e]. *)
Definition failing (e : exn) : Network := fun _ => Raise e.

Definition not_json : outcome pyval :=
  Raise (Exn JSONDecodeError "Expecting value: line 1 column 1 (char 0)").

(** The body [{"msg": "success"}]. *)
Definition body_without_success_field : Response :=
  {| text := "{" ++ quoted "msg" ++ ": " ++ quoted "success" ++ "}";
     json := Ret (PDict [("msg", PStr "success")]) |}.

(** The body [{"success": false, "msg": "bad password"}]. *)
Definition body_bad_password : Response :=
  {| text := "{" ++ quoted "success" ++ ": false, "
               ++ quoted "msg" ++ ": " ++ quoted "bad password" ++ "}";
     json := Ret (PDict [("success", PBool false); ("msg", PStr "bad password")]) |}.

(** The body [{"success": true, "msg": "ok"}]. *)
Definition body_ok : Response :=
  {| text := "{" ++ quoted "success" ++ ": true, "
               ++ quoted "msg" ++ ": " ++ quoted "ok" ++ "}";
     json := Ret (PDict [("success", PBool true); ("msg", PStr "ok")]) |}.

(** A manual request, a failed probe and a periodic timeout in a row, with
    no login result delivered in between. *)
Definition three_triggers : list event :=
  [LoginClicked; NetworkStatus false; PeriodicTimeout].

(** A configuration file that has lost its [Settings] section. *)
Definition config_without_settings : pyval :=
  PDict
    [("Login",
      PDict [("url", PStr "http://10.0.0.1/ac_portal/login.php");
             ("opr", PStr "pwdLogin");
             ("userName", PStr "alice");
             ("pwd", PStr "s3cret");
             ("auth_tag", PStr "1700000000");
             ("rememberPwd", PStr "0")]);
     ("Headers", PDict [("Accept", PStr "*/*")])].

(* ================================================================== *)
(** * The login worker: lemmas *)
(* ================================================================== *)

Lemma py_len_slice (n : nat) (s : string) :
  py_len (py_slice_to n s) = Nat.min n (py_len s).
Proof.
  revert n; induction s as [|c s IH]; intros n; simpl.
  - now rewrite Nat.min_0_r.
  - destruct (is_continuation c) eqn:E.
    + simpl. rewrite E. apply IH.
    + destruct n; simpl; [reflexivity|]. rewrite E, IH. reflexivity.
Qed.

Lemma prefix_slice (n : nat) (s : string) : prefix (py_slice_to n s) s = true.
Proof.
  revert n; induction s as [|c s IH]; intros n; simpl; [reflexivity|].
  destruct (is_continuation c).
  - simpl. destruct (ascii_dec c c); [apply IH|congruence].
  - destruct n; simpl; [reflexivity|].
    destruct (ascii_dec c c); [apply IH|congruence].
Qed.

Lemma failure_signal_dispatch (e : exn) (emitted : list Signal) :
  dispatch
    [(is_RequestException, fun e => emit ("连接失败: " ++ exn_str e) false);
     (is_Exception, fun e => emit ("错误: " ++ exn_str e) false)] e emitted
  = ((emitted ++ [failure_signal e])%list, Ret tt).
Proof.
  unfold failure_signal; simpl.
  destruct (is_RequestException e); reflexivity.
Qed.

(** [do_login] by the stage at which it leaves the outer [try]. *)
Lemma run_worker_eq (R : PyRuntime) (config : pyval) (post : Network) :
  run_worker config post =
  match request_of config with
  | Raise e => ([failure_signal e], Ret tt)
  | Ret request =>
      match post request with
      | Raise e => ([failure_signal e], Ret tt)
      | Ret response =>
          match LoginWorker.classify response [] with
          | (emitted, Ret _) => (emitted, Ret tt)
          | (emitted, Raise e) => ((emitted ++ [failure_signal e])%list, Ret tt)
          end
      end
  end.
Proof.
  unfold run_worker, LoginWorker.do_login, request_of, try_except.
  unfold LoginWorker.get_login_data, LoginWorker.get_headers, bind, lift, ret.
  destruct (py_getitem config "Login") as [login|e]; simpl;
    [|apply failure_signal_dispatch].
  destruct (py_getitem login "url") as [url|e]; simpl;
    [|apply failure_signal_dispatch].
  destruct (py_getitem login "opr") as [opr|e]; simpl;
    [|apply failure_signal_dispatch].
  destruct (py_getitem login "userName") as [userName|e]; simpl;
    [|apply failure_signal_dispatch].
  destruct (py_getitem login "pwd") as [pwd|e]; simpl;
    [|apply failure_signal_dispatch].
  destruct (py_getitem login "auth_tag") as [auth_tag|e]; simpl;
    [|apply failure_signal_dispatch].
  destruct (py_getitem login "rememberPwd") as [rememberPwd|e]; simpl;
    [|apply failure_signal_dispatch].
  destruct (py_getitem config "Headers") as [headers|e]; simpl;
    [|apply failure_signal_dispatch].
  destruct (post _) as [response|e]; simpl;
    [|apply failure_signal_dispatch].
  destruct (LoginWorker.classify response []) as [emitted [[]|e]]; simpl.
  - reflexivity.
  - apply failure_signal_dispatch.
Qed.

(** The inner [try] by the shape of the body. *)
Lemma classify_eq (R : PyRuntime) (response : Response) :
  LoginWorker.classify response [] =
  match json response with
  | Ret (PDict fields) =>
      if truthy (field_or fields "success" PNone) then
        ([("登录成功: " ++ fmt (field_or fields "msg" (PStr "")), true)], Ret tt)
      else
        ([("登录失败: " ++ fmt (field_or fields "msg" (PStr "未知错误")), false)], Ret tt)
  | Ret v =>
      ([], Raise (Exn AttributeError
                    (quote (type_name v) ++ " object has no attribute 'get'")))
  | Raise e =>
      if is_ValueError e then
        if contains "success" (lower (text response))
           || contains "logon success" (lower (text response))
        then ([("登录成功", true)], Ret tt)
        else ([("登录响应: " ++ py_slice_to 100 (text response), false)], Ret tt)
      else ([], Raise e)
  end.
Proof.
  unfold LoginWorker.classify, try_except, bind, lift, field_or.
  destruct (json response) as [v|e]; simpl.
  - destruct v; simpl; try reflexivity.
    destruct (truthy _); reflexivity.
  - destruct (is_ValueError e); [|reflexivity].
    destruct (_ || _); reflexivity.
Qed.

(** The specification's own examples (section 8), on a configured portal. *)
Example response_success_true :
  @run_worker example_runtime portal_config (answering body_ok)
  = ([("登录成功: ok", true)], Ret tt).
Proof. reflexivity. Qed.

Example response_success_false :
  @run_worker example_runtime portal_config (answering body_bad_password)
  = ([("登录失败: bad password", false)], Ret tt).
Proof. reflexivity. Qed.

Example response_text_logon_success :
  @run_worker example_runtime portal_config
    (answering {| text := "Logon Success"; json := not_json |})
  = ([("登录成功", true)], Ret tt).
Proof. reflexivity. Qed.

Example response_text_html_error :
  @run_worker example_runtime portal_config
    (answering {| text := "<html>error</html>"; json := not_json |})
  = ([("登录响应: <html>error</html>", false)], Ret tt).
Proof. reflexivity. Qed.

Example response_missing_login_section :
  @run_worker example_runtime (PDict []) (answering body_ok)
  = ([("错误: 'Login'", false)], Ret tt).
Proof. reflexivity. Qed.

(* ================================================================== *)
(** * The login worker: claims *)
(* ================================================================== *)

(** C3, counterexample.  The body [{"msg": "success"}] parses as a mapping
    that has no [success] field.  The specification's policy sends it to
    rule 2, where the text contains "success": [Success].  The program
    stays in the structured branch, finds [success] absent, and emits a
    failure. *)
Lemma spec_policy_counterexample :
  @run_worker example_runtime portal_config (answering body_without_success_field)
  = ([("登录失败: success", false)], Ret tt)
  /\ @spec_classify example_runtime body_without_success_field
     = Success "login succeeded"
  /\ map tag (fst (@run_worker example_runtime portal_config
                     (answering body_without_success_field)))
     <> [is_Success (@spec_classify example_runtime body_without_success_field)].
Proof.
  split; [reflexivity|]. split; [reflexivity|].
  simpl. discriminate.
Qed.

(** C3, as amended.  For a response received by a login attempt: when the
    body parses as a JSON object, a truthy [success] entry yields success
    with the [msg] entry (or the empty text), and a falsy or absent
    [success] entry yields failure with the [msg] entry, or "未知错误" when
    there is none; when the body does not parse as JSON, a text that
    contains "success" or "logon success" in any letter case yields
    success, and any other text yields failure with the first 100
    characters of the body. *)
Theorem login_response_classification (R : PyRuntime) (config : pyval)
    (post : Network) (request : Request) (response : Response) :
  request_of config = Ret request ->
  post request = Ret response ->
  (forall fields, json response = Ret (PDict fields) ->
     run_worker config post =
     ([if truthy (field_or fields "success" PNone)
       then ("登录成功: " ++ fmt (field_or fields "msg" (PStr "")), true)
       else ("登录失败: " ++ fmt (field_or fields "msg" (PStr "未知错误")), false)],
      Ret tt))
  /\ (forall e, json response = Raise e -> is_ValueError e = true ->
        run_worker config post =
        ([if contains "success" (lower (text response))
             || contains "logon success" (lower (text response))
          then ("登录成功", true)
          else ("登录响应: " ++ py_slice_to 100 (text response), false)],
         Ret tt)
        /\ py_len (py_slice_to 100 (text response))
           = Nat.min 100 (py_len (text response))
        /\ prefix (py_slice_to 100 (text response)) (text response) = true).
Proof.
  intros Hrequest Hpost.
  rewrite run_worker_eq, Hrequest, Hpost, classify_eq.
  split.
  - intros fields ->.
    destruct (truthy _); reflexivity.
  - intros e -> ->.
    split; [|split].
    + destruct (_ || _); reflexivity.
    + apply py_len_slice.
    + apply prefix_slice.
Qed.

Lemma login_response_classification_witness :
  @run_worker example_runtime portal_config (answering body_bad_password)
  = ([("登录失败: bad password", false)], Ret tt)
  /\ @run_worker example_runtime portal_config
       (answering {| text := "Logon Success"; json := not_json |})
     = ([("登录成功", true)], Ret tt).
Proof.
  split.
  - exact (proj1 (@login_response_classification example_runtime portal_config
                    (answering body_bad_password) _ body_bad_password
                    eq_refl eq_refl) _ eq_refl).
  - exact (proj1 (proj2 (@login_response_classification example_runtime
                           portal_config
                           (answering {| text := "Logon Success"; json := not_json |})
                           _ _ eq_refl eq_refl) _ eq_refl eq_refl)).
Defined.

(** C4, counterexample.  A connection timeout and a rejected password are
    both signalled with [success = False]: the result type
    [pyqtSignal(str, bool)] has two tags, and a transport failure carries
    the tag of a failure. *)
Lemma transport_error_shares_failure_tag :
  @run_worker example_runtime portal_config
    (failing (Exn Timeout "HTTPConnectionPool(host='10.0.0.1', port=80): Read timed out."))
  = ([("连接失败: HTTPConnectionPool(host='10.0.0.1', port=80): Read timed out.", false)],
     Ret tt)
  /\ @run_worker example_runtime portal_config (answering body_bad_password)
     = ([("登录失败: bad password", false)], Ret tt)
  /\ map tag (fst (@run_worker example_runtime portal_config
                     (failing (Exn Timeout
                        "HTTPConnectionPool(host='10.0.0.1', port=80): Read timed out."))))
     = map tag (fst (@run_worker example_runtime portal_config
                       (answering body_bad_password))).
Proof. repeat split; reflexivity. Qed.

(** C4, as amended.  For every network-layer failure of a login attempt (an
    exception of [requests.post] derived from [RequestException]: connection
    refused, DNS failure, timeout), the attempt emits exactly one signal,
    with [success = False] and the message "连接失败: " followed by the
    description; the failure is told from a portal rejection by that
    prefix only. *)
Theorem transport_failure_is_signalled_as_failure (R : PyRuntime) (config : pyval)
    (post : Network) (request : Request) (e : exn) :
  request_of config = Ret request ->
  post request = Raise e ->
  is_RequestException e = true ->
  run_worker config post = ([("连接失败: " ++ exn_str e, false)], Ret tt).
Proof.
  intros Hrequest Hpost He.
  rewrite run_worker_eq, Hrequest, Hpost.
  unfold failure_signal. rewrite He. reflexivity.
Qed.

Lemma transport_failure_is_signalled_as_failure_witness :
  is_RequestException (Exn ConnectionError "Connection refused") = true
  /\ @run_worker example_runtime portal_config
       (failing (Exn ConnectionError "Connection refused"))
     = ([("连接失败: Connection refused", false)], Ret tt).
Proof.
  split; [reflexivity|].
  exact (@transport_failure_is_signalled_as_failure example_runtime portal_config
           (failing (Exn ConnectionError "Connection refused")) _ _
           eq_refl eq_refl eq_refl).
Defined.

(** C9.  The login worker is total: for every configuration and every
    behaviour of the network, [do_login] returns without an exception and
    has emitted exactly one signal.  When the configuration lacks a key,
    when [requests.post] raises, when the body parses to a value that is not
    a mapping, or when [response.json()] raises something else than a
    [ValueError], that signal has [success = False] and carries the text of
    the exception. *)
Theorem login_worker_is_total (R : PyRuntime) (config : pyval) (post : Network) :
  exists message success,
    run_worker config post = ([(message, success)], Ret tt)
    /\ (forall e, request_of config = Raise e ->
          message = fst (failure_signal e) /\ success = false)
    /\ (forall request e,
          request_of config = Ret request -> post request = Raise e ->
          message = fst (failure_signal e) /\ success = false)
    /\ (forall request response v,
          request_of config = Ret request -> post request = Ret response ->
          json response = Ret v -> (forall fields, v <> PDict fields) ->
          message = "错误: " ++ quote (type_name v) ++ " object has no attribute 'get'"
          /\ success = false)
    /\ (forall request response e,
          request_of config = Ret request -> post request = Ret response ->
          json response = Raise e -> is_ValueError e = false ->
          message = fst (failure_signal e) /\ success = false).
Proof.
  rewrite run_worker_eq.
  destruct (request_of config) as [request|e] eqn:Hrequest.
  2:{ exists (fst (failure_signal e)), false.
      split; [reflexivity|].
      repeat apply conj; intros; first [discriminate | split; congruence]. }
  destruct (post request) as [response|e] eqn:Hpost.
  2:{ exists (fst (failure_signal e)), false.
      split; [reflexivity|].
      repeat apply conj; intros; first [discriminate | split; congruence]. }
  rewrite classify_eq.
  assert (Hsame : forall request' response',
             Ret request = Ret request' -> post request' = Ret response' ->
             response' = response) by (intros; congruence).
  destruct (json response) as [v|e] eqn:Hjson.
  - assert (Hv : forall request' response' v',
               Ret request = Ret request' -> post request' = Ret response' ->
               json response' = Ret v' -> v' = v).
    { intros ? ? ? H1 H2 H3. rewrite (Hsame _ _ H1 H2) in H3. congruence. }
    assert (He : forall request' response' e',
               Ret request = Ret request' -> post request' = Ret response' ->
               json response' = Raise e' -> False).
    { intros ? ? ? H1 H2 H3. rewrite (Hsame _ _ H1 H2) in H3. congruence. }
    destruct v as [| b | z | f | s | xs | fields];
      try (eexists; exists false; split; [reflexivity|];
           repeat apply conj;
           [ intros; exfalso; congruence
           | intros; exfalso; congruence
           | intros ? ? ? H1 H2 H3 _; rewrite (Hv _ _ _ H1 H2 H3);
             split; reflexivity
           | intros ? ? ? H1 H2 H3 _; destruct (He _ _ _ H1 H2 H3) ]).
    destruct (truthy (field_or fields "success" PNone));
      (eexists; eexists; split; [reflexivity|];
       repeat apply conj;
       [ intros; exfalso; congruence
       | intros; exfalso; congruence
       | intros ? ? ? H1 H2 H3 H4; destruct (H4 fields (Hv _ _ _ H1 H2 H3))
       | intros ? ? ? H1 H2 H3 _; destruct (He _ _ _ H1 H2 H3) ]).
  - assert (Hv : forall request' response' v',
               Ret request = Ret request' -> post request' = Ret response' ->
               json response' = Ret v' -> False).
    { intros ? ? ? H1 H2 H3. rewrite (Hsame _ _ H1 H2) in H3. congruence. }
    assert (He : forall request' response' e',
               Ret request = Ret request' -> post request' = Ret response' ->
               json response' = Raise e' -> e' = e).
    { intros ? ? ? H1 H2 H3. rewrite (Hsame _ _ H1 H2) in H3. congruence. }
    destruct (is_ValueError e) eqn:Hvalue.
    + destruct (_ || _);
        (eexists; eexists; split; [reflexivity|];
         repeat apply conj;
         [ intros; exfalso; congruence
         | intros; exfalso; congruence
         | intros ? ? ? H1 H2 H3 _; destruct (Hv _ _ _ H1 H2 H3)
         | intros ? ? ? H1 H2 H3 H4; rewrite (He _ _ _ H1 H2 H3) in H4;
           congruence ]).
    + exists (fst (failure_signal e)), false.
      split; [reflexivity|].
      repeat apply conj;
        [ intros; exfalso; congruence
        | intros; exfalso; congruence
        | intros ? ? ? H1 H2 H3 _; destruct (Hv _ _ _ H1 H2 H3)
        | intros ? ? ? H1 H2 H3 _; rewrite (He _ _ _ H1 H2 H3);
          split; reflexivity ].
Qed.

(** C10.  The login workers of V1.2 and V1.2.2 are equivalent: on every
    configuration, every behaviour of the network and every list of signals
    already emitted, [do_login] of both versions emits the same signals and
    ends the same way. *)
Theorem login_worker_versions_agree (R : PyRuntime) (config : pyval)
    (post : Network) (emitted : list Signal) :
  LoginWorker_V1_2.do_login config post emitted
  = LoginWorker.do_login config post emitted.
Proof.
  unfold LoginWorker_V1_2.do_login, LoginWorker.do_login.
  unfold LoginWorker_V1_2.get_login_data, LoginWorker.get_login_data.
  unfold LoginWorker_V1_2.get_headers, LoginWorker.get_headers.
  unfold LoginWorker_V1_2.classify, LoginWorker.classify.
  reflexivity.
Qed.

(* ================================================================== *)
(** * The application: lemmas *)
(* ================================================================== *)

(** ** What a computation leaves untouched *)

Section Preservation.
Context {S X : Type} (f : S -> X).

Lemma preserves_ret {A} (a : A) : preserves f (ret a).
Proof. intros s; reflexivity. Qed.

Lemma preserves_raise {A} (e : exn) : preserves f (@raise S A e).
Proof. intros s; reflexivity. Qed.

Lemma preserves_lift {A} (o : outcome A) : preserves f (lift o).
Proof. intros s; reflexivity. Qed.

Lemma preserves_gets {A} (g : S -> A) : preserves f (gets g).
Proof. intros s; reflexivity. Qed.

Lemma preserves_modify (g : S -> S) :
  (forall s, f (g s) = f s) -> preserves f (modify g).
Proof. intros H s; apply H. Qed.

Lemma preserves_bind {A B} (m : M S A) (k : A -> M S B) :
  preserves f m -> (forall a, preserves f (k a)) -> preserves f (bind m k).
Proof.
  intros Hm Hk s. unfold bind.
  specialize (Hm s). destruct (m s) as [s' [a|e]]; simpl in *.
  - now rewrite Hk.
  - exact Hm.
Qed.

Lemma preserves_dispatch {A} (clauses : list (clause S A)) :
  Forall (fun c => forall e, preserves f (snd c e)) clauses ->
  forall e, preserves f (dispatch clauses e).
Proof.
  induction 1 as [|[test handler] rest Hc _ IH]; intros e; simpl.
  - apply preserves_raise.
  - destruct (test e); [apply Hc|apply IH].
Qed.

Lemma preserves_try_except {A} (body : M S A) (clauses : list (clause S A)) :
  preserves f body ->
  Forall (fun c => forall e, preserves f (snd c e)) clauses ->
  preserves f (try_except body clauses).
Proof.
  intros Hb Hc s. unfold try_except.
  specialize (Hb s). destruct (body s) as [s' [a|e]]; simpl in *.
  - exact Hb.
  - generalize (@preserves_dispatch A clauses Hc e s'). congruence.
Qed.
End Preservation.

Create HintDb app discriminated.
#[local] Hint Unfold
  NetworkLoginApp.act NetworkLoginApp.log NetworkLoginApp.save_config
  NetworkLoginApp.cb_setChecked NetworkLoginApp.config_settings_assign
  NetworkLoginApp.config_settings_get NetworkLoginApp.config_login
  NetworkLoginApp.update_next_periodic_time NetworkLoginApp.update_periodic_timer
  NetworkLoginApp.refuse_unconfigured NetworkLoginApp.start_login_thread
  NetworkLoginApp.do_login NetworkLoginApp.periodic_login
  NetworkLoginApp.on_network_status_changed NetworkLoginApp.manual_login
  NetworkLoginApp.on_login_result NetworkLoginApp.toggle_auto_reconnect
  NetworkLoginApp.update_check_interval NetworkLoginApp.update_periodic_login_interval
  NetworkLoginApp.reload_config NetworkLoginApp.check_config_update
  NetworkLoginApp.init timer_start timer_stop : app.

Ltac frame_step :=
  first
    [ apply preserves_ret
    | apply preserves_raise
    | apply preserves_lift
    | apply preserves_gets
    | apply preserves_modify; intros; reflexivity
    | apply preserves_bind; [|intros]
    | apply preserves_try_except; [|repeat constructor; simpl; intros]
    | match goal with
      | |- preserves _ (if ?b then _ else _) => destruct b
      | |- preserves _ (match ?x with _ => _ end) => destruct x
      end ].


Lemma fst_bind {S A B} (m : M S A) (k : A -> M S B) (s : S) :
  fst (bind m k s) =
  match m s with
  | (s', Ret a) => fst (k a s')
  | (s', Raise _) => s'
  end.
Proof. unfold bind. destruct (m s) as [s' [a|e]]; reflexivity. Qed.

Lemma fst_try_except {S A X} (f : S -> X) (body : M S A) (clauses : list (clause S A))
    (s : S) :
  Forall (fun c => forall e, preserves f (snd c e)) clauses ->
  f (fst (try_except body clauses s)) = f (fst (body s)).
Proof.
  intros Hc. unfold try_except.
  destruct (body s) as [s' [a|e]]; simpl; [reflexivity|].
  apply (@preserves_dispatch S X f A clauses Hc e s').
Qed.

Lemma preserves_deliver {X} (f : App -> X) (signals : list Signal) :
  (forall l s, f (set_shell l s) = f s) -> preserves f (deliver signals).
Proof.
  intros Hf. induction signals as [|[message success] rest IH]; simpl.
  - apply preserves_ret.
  - apply preserves_bind; [|intros; exact IH].
    unfold NetworkLoginApp.on_login_result, NetworkLoginApp.log, NetworkLoginApp.act.
    destruct success;
      (apply preserves_bind; [|intros]; apply preserves_modify; intros; apply Hf).
Qed.

Lemma config_login_eq (key : string) (st : App) :
  NetworkLoginApp.config_login key st = (st, login_field (config st) key).
Proof.
  unfold NetworkLoginApp.config_login, login_field, bind, gets, lift.
  destruct (py_getitem (config st) "Login"); reflexivity.
Qed.

Lemma refuse_unconfigured_eq (st : App) :
  NetworkLoginApp.refuse_unconfigured st = (set_shell (shell st ++ refusal) st, Ret tt).
Proof.
  unfold NetworkLoginApp.refuse_unconfigured, NetworkLoginApp.log, NetworkLoginApp.act,
    bind, modify, set_shell, refusal; simpl.
  now rewrite <- app_assoc.
Qed.

Lemma do_login_configured (st : App) :
  credentials_configured (config st) ->
  NetworkLoginApp.do_login st
  = (set_login_threads (login_threads st ++ [config st]) st, Ret tt).
Proof.
  intros (userName & pwd & url & Hu & Hp & Hl & Eu & Ep & El).
  unfold NetworkLoginApp.do_login, bind.
  rewrite config_login_eq, Hu; cbv beta iota; rewrite Eu.
  rewrite config_login_eq, Hp; cbv beta iota; rewrite Ep.
  rewrite config_login_eq, Hl; cbv beta iota.
  unfold lift. rewrite El. reflexivity.
Qed.

Lemma do_login_placeholder (st : App) :
  credentials_placeholder (config st) ->
  NetworkLoginApp.do_login st = (set_shell (shell st ++ refusal) st, Ret tt).
Proof.
  intros (userName & pwd & url & Hu & Hp & Hl & H).
  unfold NetworkLoginApp.do_login, bind.
  rewrite config_login_eq, Hu; cbv beta iota.
  destruct (py_eq_str userName "YOUR_USERNAME") eqn:Eu;
    [apply refuse_unconfigured_eq|].
  rewrite config_login_eq, Hp; cbv beta iota.
  destruct (py_eq_str pwd "YOUR_PASSWORD") eqn:Ep;
    [apply refuse_unconfigured_eq|].
  rewrite config_login_eq, Hl; cbv beta iota.
  destruct H as [-> | [-> | ->]]; try discriminate.
  apply refuse_unconfigured_eq.
Qed.

Ltac frames :=
  autounfold with app;
  repeat first [frame_step | apply preserves_deliver; intros; reflexivity].



Lemma locked_of_attributes (st st' : App) :
  lock_attributes st' = lock_attributes st -> locked st -> locked st'.
Proof.
  unfold lock_attributes, locked. intros H. injection H as Ha Hf.
  rewrite Ha, Hf. trivial.
Qed.

Lemma toggle_keeps_locked (checked : pyval) (st : App) :
  locked st -> locked (fst (NetworkLoginApp.toggle_auto_reconnect checked st)).
Proof.
  intros Hlocked.
  assert (Hforced : preserves forced_auto_reconnect
                      (NetworkLoginApp.toggle_auto_reconnect checked)) by frames.
  destruct (truthy (forced_auto_reconnect st)) eqn:E.
  - apply (locked_of_attributes st); [|exact Hlocked].
    unfold NetworkLoginApp.toggle_auto_reconnect, bind at 1, gets.
    rewrite E. reflexivity.
  - intros H. rewrite Hforced in H. congruence.
Qed.

Lemma config_settings_get_eq (key : string) (default : pyval) (st : App) :
  NetworkLoginApp.config_settings_get key default st
  = (st, settings_field (config st) key default).
Proof.
  unfold NetworkLoginApp.config_settings_get, settings_field, bind, gets, lift.
  destruct (py_getitem (config st) "Settings"); reflexivity.
Qed.

(** Reading the four settings (lines 106-109 and 549-552): either all four
    attributes are assigned, or the first read raises and none is. *)
Lemma read_settings_locked (k : M App unit) (st : App) :
  (forall s, locked (fst (k s))) ->
  locked st ->
  locked (fst ((auto <- NetworkLoginApp.config_settings_get "auto_reconnect" (PBool true) ;;
                modify (set_auto_reconnect auto) ;;
                check <- NetworkLoginApp.config_settings_get "check_interval" (PInt 60) ;;
                modify (set_check_interval check) ;;
                periodic <- NetworkLoginApp.config_settings_get
                              "periodic_login_interval" (PInt 0) ;;
                modify (set_periodic_login_interval periodic) ;;
                forced <- NetworkLoginApp.config_settings_get
                            "forced_auto_reconnect" (PBool false) ;;
                modify (set_forced_auto_reconnect forced) ;;
                k) st)).
Proof.
  intros Hk Hst.
  rewrite fst_bind, config_settings_get_eq. unfold settings_field.
  destruct (py_getitem (config st) "Settings") as [settings|e] eqn:Hsettings;
    [|exact Hst].
  destruct settings as [| b | z | f | s | xs | entries]; try exact Hst.
  cbn [py_get].
  rewrite fst_bind; cbn [modify].
  rewrite fst_bind, config_settings_get_eq; unfold settings_field;
    cbn [config set_auto_reconnect]; rewrite Hsettings; cbn [py_get].
  rewrite fst_bind; cbn [modify].
  rewrite fst_bind, config_settings_get_eq; unfold settings_field;
    cbn [config set_auto_reconnect set_check_interval]; rewrite Hsettings; cbn [py_get].
  rewrite fst_bind; cbn [modify].
  rewrite fst_bind, config_settings_get_eq; unfold settings_field;
    cbn [config set_auto_reconnect set_check_interval set_periodic_login_interval];
    rewrite Hsettings; cbn [py_get].
  rewrite fst_bind; cbn [modify].
  apply Hk.
Qed.

Lemma preserves_apply {S A X} (f : S -> X) (m : M S A) (s : S) :
  preserves f m -> f (fst (m s)) = f s.
Proof. intros H; apply H. Qed.

Lemma reload_keeps_locked (R : PyRuntime) (file : FileRead) (st : App) :
  locked st -> locked (fst (NetworkLoginApp.reload_config file st)).
Proof.
  intros Hst. unfold NetworkLoginApp.reload_config.
  eapply locked_of_attributes.
  { apply fst_try_except. repeat constructor; simpl; intros; frames. }
  rewrite fst_bind. unfold lift at 1.
  destruct (loaded file) as [cfg|e]; [|exact Hst].
  rewrite fst_bind; cbn [modify].
  apply read_settings_locked; [|exact Hst].
  intros s. rewrite fst_bind; cbn [gets]. rewrite fst_bind.
  destruct (truthy (forced_auto_reconnect s)) eqn:Hforced.
  - cbn [bind modify NetworkLoginApp.act].
    eapply locked_of_attributes; [apply preserves_apply; frames|].
    intros _. reflexivity.
  - cbn [bind modify NetworkLoginApp.act].
    eapply locked_of_attributes; [apply preserves_apply; frames|].
    intros H. cbn in H. congruence.
Qed.

Lemma init_locked (R : PyRuntime) (file : FileRead) :
  locked (fst (NetworkLoginApp.init file NetworkLoginApp.blank)).
Proof.
  assert (Hblank : locked NetworkLoginApp.blank) by (intros H; discriminate H).
  unfold NetworkLoginApp.init.
  rewrite fst_bind. unfold lift at 1.
  destruct (loaded file) as [cfg|e]; [|exact Hblank].
  rewrite fst_bind; cbn [modify].
  apply read_settings_locked; [|exact Hblank].
  intros s. rewrite fst_bind; cbn [gets]. rewrite fst_bind.
  destruct (truthy (forced_auto_reconnect s)) eqn:Hforced.
  - cbn [modify].
    eapply locked_of_attributes; [apply preserves_apply; frames|].
    intros _. reflexivity.
  - cbn [ret].
    eapply locked_of_attributes; [apply preserves_apply; frames|].
    intros H. congruence.
Qed.

Lemma step_keeps_locked (R : PyRuntime) (st : App) (ev : event) :
  locked st -> locked (step st ev).
Proof.
  intros Hst. unfold step.
  destruct ev; cbn [handle];
    try (apply (locked_of_attributes st); [apply preserves_apply; solve [frames]|exact Hst]).
  - exact (toggle_keeps_locked _ _ Hst).
  - rewrite fst_bind; cbn [modify].
    apply (toggle_keeps_locked _ (set_auto_reconnect_cb checked st)). exact Hst.
  - exact (reload_keeps_locked R file st Hst).
  - unfold NetworkLoginApp.check_config_update.
    eapply locked_of_attributes.
    { apply fst_try_except. repeat constructor; simpl; intros; frames. }
    rewrite fst_bind. unfold lift at 1.
    destruct (mtime file) as [current|e]; [|exact Hst].
    rewrite fst_bind; cbn [gets].
    destruct (negb (current =? config_last_modified st)); [|exact Hst].
    rewrite fst_bind; cbn [modify].
    rewrite fst_bind.
    unfold NetworkLoginApp.log at 1, NetworkLoginApp.act at 1; cbn [modify].
    apply (reload_keeps_locked R file). exact Hst.
Qed.

(** A running application never has [forced_auto_reconnect] set while
    [auto_reconnect] is anything but [True]. *)
Lemma reachable_locked (R : PyRuntime) (st : App) : reachable st -> locked st.
Proof.
  induction 1 as [file st Hinit|st ev _ IH _].
  - change st with (fst (st, @Ret unit tt)). rewrite <- Hinit. exact (init_locked R file).
  - exact (step_keeps_locked R st ev IH).
Qed.

(** Each trigger writes one log line and calls [do_login]; what follows the
    call starts no thread and ends none. *)
Lemma trigger_calls_do_login (R : PyRuntime) (st : App) (ev : event) :
  is_trigger ev st = true ->
  exists message,
    login_threads (step st ev)
    = login_threads
        (fst (NetworkLoginApp.do_login
                (set_shell (shell st ++ [LogAppend message]) st))).
Proof.
  intros Htrigger. unfold step.
  destruct ev; cbn [is_trigger] in Htrigger; try discriminate Htrigger;
    cbn [handle].
  - eexists. unfold NetworkLoginApp.manual_login.
    rewrite fst_bind. reflexivity.
  - eexists. unfold NetworkLoginApp.on_network_status_changed.
    rewrite fst_bind; cbn [gets].
    unfold effective_auto_reconnect in Htrigger. rewrite Htrigger.
    rewrite fst_bind. reflexivity.
  - exists ("执行定期登录（间隔: " ++ fmt (periodic_login_interval st) ++ "秒）...").
    unfold NetworkLoginApp.periodic_login.
    rewrite fst_bind; cbn [gets].
    rewrite fst_bind.
    unfold NetworkLoginApp.log at 1, NetworkLoginApp.act at 1; cbn [modify].
    rewrite fst_bind.
    destruct (NetworkLoginApp.do_login _) as [s' [[]|e]]; cbn [fst]; [|reflexivity].
    apply preserves_apply. frames.
Qed.

Lemma trigger_starts_thread (R : PyRuntime) (st : App) (ev : event) :
  credentials_configured (config st) ->
  is_trigger ev st = true ->
  login_threads (step st ev) = (login_threads st ++ [config st])%list.
Proof.
  intros Hconfigured Htrigger.
  destruct (trigger_calls_do_login R st ev Htrigger) as [message ->].
  rewrite do_login_configured; [reflexivity|exact Hconfigured].
Qed.

Lemma trigger_refused (R : PyRuntime) (st : App) (ev : event) :
  credentials_placeholder (config st) ->
  is_trigger ev st = true ->
  login_threads (step st ev) = login_threads st.
Proof.
  intros Hplaceholder Htrigger.
  destruct (trigger_calls_do_login R st ev Htrigger) as [message ->].
  rewrite do_login_placeholder; [reflexivity|exact Hplaceholder].
Qed.





Lemma reload_unreadable_keeps_snapshot (R : PyRuntime) (file : FileRead) (st : App)
    (e : exn) :
  loaded file = Raise e ->
  NetworkLoginApp.reload_config file st
  = (set_shell
       (shell st ++ [LogAppend ("重新加载配置文件失败: " ++ exn_str e);
                     MessageBoxWarning "配置加载错误"
                       ("重新加载配置文件失败: " ++ exn_str e)]) st,
     Ret tt).
Proof.
  intros Hloaded.
  unfold NetworkLoginApp.reload_config, try_except.
  unfold bind at 1, lift at 1. rewrite Hloaded.
  cbn [dispatch is_Exception].
  unfold NetworkLoginApp.log, NetworkLoginApp.act, bind, modify, set_shell; simpl.
  now rewrite <- app_assoc.
Qed.

Lemma toggle_forced_eq (checked : pyval) (st : App) :
  truthy (forced_auto_reconnect st) = true ->
  NetworkLoginApp.toggle_auto_reconnect checked st
  = (set_shell (shell st ++ toggle_rejection) (set_auto_reconnect_cb true st), Ret tt).
Proof.
  intros Hforced.
  unfold NetworkLoginApp.toggle_auto_reconnect, bind at 1, gets.
  rewrite Hforced.
  unfold NetworkLoginApp.cb_setChecked, NetworkLoginApp.log, NetworkLoginApp.act,
    bind, modify, set_shell, toggle_rejection; simpl.
  now rewrite <- app_assoc.
Qed.

(** ** Runs *)

Lemma steps_run (R : PyRuntime) (evs : list event) (st : App) :
  admissible st evs = true -> steps st evs (run st evs).
Proof.
  revert st; induction evs as [|ev evs IH]; intros st H.
  - apply steps_nil.
  - cbn [admissible] in H. apply andb_prop in H. destruct H as [Hev Hevs].
    apply steps_cons; [exact Hev|]. exact (IH _ Hevs).
Qed.

Lemma reachable_steps (R : PyRuntime) (st st' : App) (evs : list event) :
  steps st evs st' -> reachable st -> reachable st'.
Proof.
  induction 1 as [st|st ev evs st' Henabled _ IH]; intros Hst; [exact Hst|].
  apply IH. apply reachable_step; assumption.
Qed.

Lemma started_reachable (R : PyRuntime) (cfg : pyval) :
  snd (NetworkLoginApp.init (file_of cfg) NetworkLoginApp.blank) = Ret tt ->
  reachable (started cfg).
Proof.
  unfold started.
  destruct (NetworkLoginApp.init (file_of cfg) NetworkLoginApp.blank) as [st r] eqn:Hinit.
  cbn [fst snd]. intros ->. exact (reachable_init (file_of cfg) st Hinit).
Qed.

Lemma campus_credentials_configured (settings : list (string * pyval)) :
  credentials_configured (campus_config settings).
Proof.
  exists (PStr "alice"), (PStr "s3cret"), (PStr "http://10.0.0.1/ac_portal/login.php").
  repeat split; vm_compute; reflexivity.
Qed.

Lemma default_credentials_placeholder : credentials_placeholder default_config.
Proof.
  exists (PStr "YOUR_USERNAME"), (PStr "YOUR_PASSWORD"),
    (PStr "http://YOUR_LOGIN_SERVER_URL/ac_portal/login.php").
  repeat split; try (vm_compute; reflexivity). left; reflexivity.
Qed.

(* ================================================================== *)
(** * The application: claims *)
(* ================================================================== *)

(** C1, counterexample.  On a configured portal, a manual request, a
    failed probe and a periodic timeout that arrive before any login result
    leave three login attempts in flight: no trigger is dropped. *)
Lemma concurrent_attempts_counterexample :
  @steps example_runtime (@started example_runtime portal_config) three_triggers
    (@run example_runtime (@started example_runtime portal_config) three_triggers)
  /\ @reachable example_runtime
       (@run example_runtime (@started example_runtime portal_config) three_triggers)
  /\ in_flight
       (@run example_runtime (@started example_runtime portal_config) three_triggers)
     = 3%nat.
Proof.
  assert (Hsteps : @steps example_runtime (@started example_runtime portal_config)
                     three_triggers
                     (@run example_runtime (@started example_runtime portal_config)
                        three_triggers)).
  { apply steps_run. vm_compute. reflexivity. }
  split; [exact Hsteps|]. split.
  - apply (reachable_steps example_runtime _ _ _ Hsteps).
    apply started_reachable. vm_compute. reflexivity.
  - vm_compute. reflexivity.
Qed.

(** C1, as amended.  The controller keeps no record of an attempt in
    flight: every trigger (manual, failed probe while auto-reconnect is on,
    periodic timeout) that passes the credentials guard starts a further
    worker thread at once, on the current configuration, whatever is already
    in flight.  No trigger is dropped or queued, and each raises the number
    of attempts in flight by one. *)
Theorem trigger_starts_a_further_attempt (R : PyRuntime) (st : App) (ev : event) :
  credentials_configured (config st) ->
  is_trigger ev st = true ->
  login_threads (step st ev) = (login_threads st ++ [config st])%list
  /\ in_flight (step st ev) = S (in_flight st).
Proof.
  intros Hconfigured Htrigger.
  pose proof (trigger_starts_thread R st ev Hconfigured Htrigger) as Hthreads.
  split; [exact Hthreads|].
  unfold in_flight. rewrite Hthreads, length_app. cbn [List.length]. lia.
Qed.

Lemma trigger_starts_a_further_attempt_witness :
  in_flight (@step example_runtime (@started example_runtime portal_config) LoginClicked)
  = 1%nat
  /\ in_flight
       (@step example_runtime
          (@step example_runtime (@started example_runtime portal_config) LoginClicked)
          (NetworkStatus false))
     = S (in_flight
            (@step example_runtime (@started example_runtime portal_config)
               LoginClicked)).
Proof.
  split; [vm_compute; reflexivity|].
  apply (@trigger_starts_a_further_attempt example_runtime).
  - exists (PStr "alice"), (PStr "s3cret"), (PStr "http://10.0.0.1/ac_portal/login.php").
    repeat split; vm_compute; reflexivity.
  - vm_compute; reflexivity.
Defined.

(** C2.  In every state in which [forced_auto_reconnect] is true, the
    auto-reconnect toggle, whatever value it is invoked with, changes no
    attribute of the controller: it re-checks the check box and reports the
    rejection in the log ("自动重连已被配置文件锁定，无法修改").  In a running
    application such a state has [auto_reconnect = True], so effective
    auto-reconnect is true before the toggle and after it. *)
Theorem forced_toggle_is_rejected (R : PyRuntime) (st : App) (checked : pyval) :
  truthy (forced_auto_reconnect st) = true ->
  NetworkLoginApp.toggle_auto_reconnect checked st
  = (set_shell (shell st ++ toggle_rejection) (set_auto_reconnect_cb true st), Ret tt)
  /\ auto_reconnect (fst (NetworkLoginApp.toggle_auto_reconnect checked st))
     = auto_reconnect st
  /\ config (fst (NetworkLoginApp.toggle_auto_reconnect checked st)) = config st
  /\ (reachable st ->
      effective_auto_reconnect st = true
      /\ effective_auto_reconnect
           (fst (NetworkLoginApp.toggle_auto_reconnect checked st)) = true).
Proof.
  intros Hforced.
  rewrite (toggle_forced_eq checked st Hforced).
  split; [reflexivity|]. split; [reflexivity|]. split; [reflexivity|].
  intros Hreachable.
  unfold effective_auto_reconnect;
    cbn [fst auto_reconnect set_shell set_auto_reconnect_cb].
  rewrite (reachable_locked R st Hreachable Hforced). split; reflexivity.
Qed.

Lemma forced_toggle_is_rejected_witness :
  truthy (forced_auto_reconnect (@started example_runtime forced_config)) = true
  /\ @reachable example_runtime (@started example_runtime forced_config)
  /\ effective_auto_reconnect
       (fst (NetworkLoginApp.toggle_auto_reconnect (PBool false)
               (@started example_runtime forced_config)))
     = true.
Proof.
  assert (Hforced : truthy (forced_auto_reconnect
                              (@started example_runtime forced_config)) = true)
    by (vm_compute; reflexivity).
  assert (Hreachable : @reachable example_runtime
                         (@started example_runtime forced_config))
    by (apply started_reachable; vm_compute; reflexivity).
  split; [exact Hforced|]. split; [exact Hreachable|].
  exact (proj2 (proj2 (proj2 (proj2 (@forced_toggle_is_rejected example_runtime
                                       (@started example_runtime forced_config)
                                       (PBool false) Hforced)))
                  Hreachable)).
Defined.

(** C5.  For every configuration in which the user name, the password or
    the URL still is the placeholder of the default configuration, a login
    is refused: the log and a tray warning say that the login information
    must be filled in, nothing else changes, and no worker thread starts,
    so no network call is made.  This holds for [do_login] and for each of
    the three triggers. *)
Theorem unconfigured_login_is_refused (R : PyRuntime) (st : App) :
  credentials_placeholder (config st) ->
  NetworkLoginApp.do_login st = (set_shell (shell st ++ refusal) st, Ret tt)
  /\ (forall ev, is_trigger ev st = true ->
        login_threads (step st ev) = login_threads st
        /\ in_flight (step st ev) = in_flight st).
Proof.
  intros Hplaceholder. split.
  - exact (do_login_placeholder st Hplaceholder).
  - intros ev Htrigger.
    pose proof (trigger_refused R st ev Hplaceholder Htrigger) as Hthreads.
    split; [exact Hthreads|]. unfold in_flight. now rewrite Hthreads.
Qed.

Lemma unconfigured_login_is_refused_witness :
  NetworkLoginApp.do_login (@started example_runtime default_config)
  = (set_shell (shell (@started example_runtime default_config) ++ refusal)
       (@started example_runtime default_config), Ret tt).
Proof.
  apply (@unconfigured_login_is_refused example_runtime).
  exists (PStr "YOUR_USERNAME"), (PStr "YOUR_PASSWORD"),
    (PStr "http://YOUR_LOGIN_SERVER_URL/ac_portal/login.php").
  repeat split; try (vm_compute; reflexivity). left; reflexivity.
Defined.

(** C6.  For every probe result delivered to the controller: an
    unreachable network with effective auto-reconnect true makes exactly one
    call of [do_login], which, when the credentials guard passes, starts
    exactly one login attempt (whether or not others are in flight); an
    unreachable network with effective auto-reconnect false changes nothing;
    a reachable network changes nothing, whatever the auto-reconnect
    setting. *)
Theorem probe_result_reaction (R : PyRuntime) (st : App) (status : bool) :
  (status = false -> effective_auto_reconnect st = true ->
   NetworkLoginApp.on_network_status_changed status st
   = NetworkLoginApp.do_login
       (set_shell (shell st ++ [LogAppend "检测到网络不可用，尝试登录..."]) st)
   /\ (credentials_configured (config st) ->
       login_threads (step st (NetworkStatus status))
       = (login_threads st ++ [config st])%list
       /\ in_flight (step st (NetworkStatus status)) = S (in_flight st)))
  /\ (status = false -> effective_auto_reconnect st = false ->
      NetworkLoginApp.on_network_status_changed status st = (st, Ret tt))
  /\ (status = true ->
      NetworkLoginApp.on_network_status_changed status st = (st, Ret tt)).
Proof.
  unfold effective_auto_reconnect.
  split; [|split].
  - intros -> Hauto. split.
    + unfold NetworkLoginApp.on_network_status_changed, bind at 1, gets.
      rewrite Hauto. reflexivity.
    + intros Hconfigured.
      assert (Htrigger : is_trigger (NetworkStatus false) st = true)
        by (unfold is_trigger, effective_auto_reconnect; now rewrite Hauto).
      pose proof (trigger_starts_thread R st _ Hconfigured Htrigger) as Hthreads.
      split; [exact Hthreads|].
      unfold in_flight. rewrite Hthreads, length_app. cbn [List.length]. lia.
  - intros -> Hauto.
    unfold NetworkLoginApp.on_network_status_changed, bind, gets.
    rewrite Hauto. reflexivity.
  - intros ->. reflexivity.
Qed.

Lemma probe_result_reaction_witness :
  in_flight (@step example_runtime (@started example_runtime portal_config)
               (NetworkStatus false))
  = S (in_flight (@started example_runtime portal_config))
  /\ NetworkLoginApp.on_network_status_changed true
       (@started example_runtime portal_config)
     = (@started example_runtime portal_config, Ret tt).
Proof.
  split.
  - apply (proj1 (@probe_result_reaction example_runtime
                    (@started example_runtime portal_config) false)).
    + reflexivity.
    + vm_compute; reflexivity.
    + exists (PStr "alice"), (PStr "s3cret"),
        (PStr "http://10.0.0.1/ac_portal/login.php").
      repeat split; vm_compute; reflexivity.
  - apply (proj2 (proj2 (@probe_result_reaction example_runtime
                           (@started example_runtime portal_config) true))).
    reflexivity.
Defined.



(** C8, the defect.  A running application reloads a configuration file
    that has lost its [Settings] section.  The error is caught and shown as
    a warning, but [self.config] has already been replaced by the malformed
    configuration: the previous snapshot is not retained. *)
Lemma reload_replaces_snapshot_before_validation :
  config (@started example_runtime portal_config) = portal_config
  /\ @step example_runtime (@started example_runtime portal_config)
       (ReloadClicked (file_of config_without_settings))
     = set_shell
         (shell (@started example_runtime portal_config)
            ++ [LogAppend "重新加载配置文件失败: 'Settings'";
                MessageBoxWarning "配置加载错误" "重新加载配置文件失败: 'Settings'"])
         (set_config config_without_settings (@started example_runtime portal_config))
  /\ config (@step example_runtime (@started example_runtime portal_config)
               (ReloadClicked (file_of config_without_settings)))
     <> config (@started example_runtime portal_config).
Proof.
  split; [vm_compute; reflexivity|].
  split; [vm_compute; reflexivity|].
  vm_compute. discriminate.
Qed.

(** After such a reload the slots run on the malformed configuration: with
    an empty file, which [yaml.safe_load] reads as [None], the next manual
    login raises out of its slot. *)
Lemma reload_empty_file_breaks_login :
  snd (@handle example_runtime LoginClicked
         (@step example_runtime (@started example_runtime portal_config)
            (ReloadClicked (file_of PNone))))
  = Raise (Exn TypeError "'NoneType' object is not subscriptable").
Proof. vm_compute. reflexivity. Qed.

(* ================================================================== *)
(** * Further properties of the login worker *)
(* ================================================================== *)

(** ** Strings *)

Lemma append_assoc (a b c : string) : (a ++ b) ++ c = a ++ (b ++ c).
Proof. induction a as [|x a IH]; simpl; [reflexivity|]. now rewrite IH. Qed.

Lemma prefix_append (a b : string) : prefix a (a ++ b) = true.
Proof.
  induction a as [|x a IH]; simpl; [destruct b; reflexivity|].
  destruct (ascii_dec x x); [exact IH|congruence].
Qed.

Lemma prefix_split (a b : string) :
  prefix a b = true -> exists rest, b = a ++ rest.
Proof.
  revert b; induction a as [|x a IH]; intros b H.
  - exists b. reflexivity.
  - destruct b as [|y b]; [discriminate H|]. simpl in H.
    destruct (ascii_dec x y) as [->|]; [|discriminate H].
    destruct (IH b H) as [rest ->]. exists rest. reflexivity.
Qed.

Lemma contains_prefix (needle hay : string) :
  prefix needle hay = true -> contains needle hay = true.
Proof.
  destruct hay as [|x hay]; simpl; intros H; [exact H|].
  rewrite H. reflexivity.
Qed.

Lemma contains_append (needle pre rest : string) :
  contains needle (pre ++ needle ++ rest) = true.
Proof.
  induction pre as [|x pre IH]; simpl.
  - apply contains_prefix, prefix_append.
  - rewrite IH. apply orb_true_r.
Qed.

Lemma contains_split (needle hay : string) :
  contains needle hay = true -> exists pre rest, hay = pre ++ needle ++ rest.
Proof.
  induction hay as [|x hay IH]; cbn [contains]; intros H.
  - destruct (prefix_split _ _ H) as [rest Hrest]. exists "", rest. exact Hrest.
  - apply orb_prop in H. destruct H as [H|H].
    + destruct (prefix_split _ _ H) as [rest Hrest]. exists "", rest. exact Hrest.
    + destruct (IH H) as (pre & rest & ->). exists (String x pre), rest. reflexivity.
Qed.

Lemma lower_append (a b : string) : lower (a ++ b) = lower a ++ lower b.
Proof. induction a as [|x a IH]; simpl; [reflexivity|]. now rewrite IH. Qed.

Lemma lower_split (s a b : string) :
  lower s = a ++ b -> exists a' b', s = a' ++ b' /\ lower a' = a /\ lower b' = b.
Proof.
  revert s; induction a as [|x a IH]; intros s H.
  - exists "", s. repeat split. exact H.
  - destruct s as [|y s]; [discriminate H|]. simpl in H.
    injection H as Hx H. destruct (IH s H) as (a' & b' & -> & Ha & Hb).
    exists (String y a'), b'. repeat split; [|exact Hb]. simpl. now rewrite Hx, Ha.
Qed.

(** [needle in s.lower()] means an occurrence of [needle] in [s] in some
    letter case. *)
Lemma contains_lower_iff (needle s : string) :
  contains needle (lower s) = true
  <-> exists pre w rest, s = pre ++ w ++ rest /\ lower w = needle.
Proof.
  split.
  - intros H. destruct (contains_split _ _ H) as (pre & rest & Hs).
    destruct (lower_split _ _ _ Hs) as (pre' & tail & -> & _ & Htail).
    destruct (lower_split _ _ _ Htail) as (w & rest' & -> & Hw & _).
    exists pre', w, rest'. split; [reflexivity|exact Hw].
  - intros (pre & w & rest & -> & <-).
    rewrite !lower_append. apply contains_append.
Qed.

Lemma logon_success_is_success (s : string) :
  contains "logon success" s = true -> contains "success" s = true.
Proof.
  intros H. destruct (contains_split _ _ H) as (pre & rest & ->).
  change ("logon success" ++ rest) with ("logon " ++ "success" ++ rest).
  rewrite <- append_assoc. apply contains_append.
Qed.

Lemma slice_short (n : nat) (s : string) :
  (py_len s <= n)%nat -> py_slice_to n s = s.
Proof.
  revert n; induction s as [|c s IH]; intros n H; simpl in *; [reflexivity|].
  destruct (is_continuation c).
  - now rewrite IH.
  - destruct n; [lia|]. rewrite IH; [reflexivity|lia].
Qed.

(** ** The signal *)

Lemma failure_signal_flag (e : exn) :
  snd (failure_signal e) = prefix "登录成功" (fst (failure_signal e)).
Proof. unfold failure_signal. destruct (is_RequestException e); reflexivity. Qed.

(** X1.  The flag of a result never disagrees with its message: on every
    configuration and every behaviour of the network, each signal that
    [do_login] emits has [success = True] exactly when its message starts
    with "登录成功". *)
Theorem signal_flag_matches_message (R : PyRuntime) (config : pyval) (post : Network) :
  Forall (fun s : Signal => snd s = prefix "登录成功" (fst s))
    (fst (run_worker config post)).
Proof.
  rewrite run_worker_eq.
  destruct (request_of config) as [request|e];
    [|repeat constructor; apply failure_signal_flag].
  destruct (post request) as [response|e];
    [|repeat constructor; apply failure_signal_flag].
  rewrite classify_eq.
  destruct (json response) as [v|e].
  - destruct v; try (repeat constructor; apply failure_signal_flag).
    destruct (truthy _); repeat constructor; reflexivity.
  - destruct (is_ValueError e);
      [|repeat constructor; apply failure_signal_flag].
    destruct (_ || _); repeat constructor; reflexivity.
Qed.

(** X2.  For a body that is not JSON, the second test of line 44 never
    decides: the attempt succeeds exactly when the body contains "success"
    in some letter case, that is, when some part of the body lower-cases to
    "success" (so "Login unsuccessful" is a success). *)
Theorem text_response_succeeds_iff (R : PyRuntime) (config : pyval) (post : Network)
    (request : Request) (response : Response) (e : exn) :
  request_of config = Ret request ->
  post request = Ret response ->
  json response = Raise e ->
  is_ValueError e = true ->
  run_worker config post
  = ([if contains "success" (lower (text response))
      then ("登录成功", true)
      else ("登录响应: " ++ py_slice_to 100 (text response), false)], Ret tt)
  /\ (contains "success" (lower (text response)) = true
      <-> exists pre w rest,
            text response = pre ++ w ++ rest /\ lower w = "success").
Proof.
  intros Hrequest Hpost Hjson Hvalue.
  split; [|apply contains_lower_iff].
  rewrite run_worker_eq, Hrequest, Hpost, classify_eq, Hjson, Hvalue.
  destruct (contains "success" (lower (text response))) eqn:Hs; [reflexivity|].
  destruct (contains "logon success" (lower (text response))) eqn:Hl; [|reflexivity].
  apply logon_success_is_success in Hl. congruence.
Qed.

Lemma text_response_succeeds_iff_witness :
  @run_worker example_runtime portal_config
    (answering {| text := "Login unsuccessful"; json := not_json |})
  = ([if contains "success" (lower "Login unsuccessful")
      then ("登录成功", true)
      else ("登录响应: " ++ py_slice_to 100 "Login unsuccessful", false)], Ret tt).
Proof.
  apply (proj1 (@text_response_succeeds_iff example_runtime portal_config
                  (answering {| text := "Login unsuccessful"; json := not_json |})
                  {| req_url := PStr "http://10.0.0.1/ac_portal/login.php";
                     req_data := PDict [("opr", PStr "pwdLogin");
                                        ("userName", PStr "alice");
                                        ("pwd", PStr "s3cret");
                                        ("auth_tag", PStr "1700000000");
                                        ("rememberPwd", PStr "0")];
                     req_headers := PDict [("Accept", PStr "*/*")];
                     req_timeout := 10 |}
                  {| text := "Login unsuccessful"; json := not_json |}
                  (Exn JSONDecodeError "Expecting value: line 1 column 1 (char 0)")
                  ltac:(vm_compute; reflexivity) eq_refl eq_refl eq_refl)).
Defined.

(** X3.  A body that is not JSON, does not contain "success" and has at
    most 100 characters is reported whole, after "登录响应: ". *)
Theorem short_text_response_reported_whole (R : PyRuntime) (config : pyval)
    (post : Network) (request : Request) (response : Response) (e : exn) :
  request_of config = Ret request ->
  post request = Ret response ->
  json response = Raise e ->
  is_ValueError e = true ->
  contains "success" (lower (text response)) = false ->
  (py_len (text response) <= 100)%nat ->
  run_worker config post = ([("登录响应: " ++ text response, false)], Ret tt).
Proof.
  intros Hrequest Hpost Hjson Hvalue Hs Hlen.
  rewrite run_worker_eq, Hrequest, Hpost, classify_eq, Hjson, Hvalue, Hs.
  destruct (contains "logon success" (lower (text response))) eqn:Hl.
  - apply logon_success_is_success in Hl. congruence.
  - cbn [orb]. now rewrite (slice_short 100 _ Hlen).
Qed.

Lemma short_text_response_reported_whole_witness :
  @run_worker example_runtime portal_config
    (answering {| text := "<html>error</html>"; json := not_json |})
  = ([("登录响应: " ++ "<html>error</html>", false)], Ret tt).
Proof.
  apply (@short_text_response_reported_whole example_runtime portal_config
           (answering {| text := "<html>error</html>"; json := not_json |})
           {| req_url := PStr "http://10.0.0.1/ac_portal/login.php";
              req_data := PDict [("opr", PStr "pwdLogin");
                                 ("userName", PStr "alice");
                                 ("pwd", PStr "s3cret");
                                 ("auth_tag", PStr "1700000000");
                                 ("rememberPwd", PStr "0")];
              req_headers := PDict [("Accept", PStr "*/*")];
              req_timeout := 10 |}
           {| text := "<html>error</html>"; json := not_json |}
           (Exn JSONDecodeError "Expecting value: line 1 column 1 (char 0)")).
  - vm_compute; reflexivity.
  - reflexivity.
  - reflexivity.
  - reflexivity.
  - vm_compute; reflexivity.
  - vm_compute. lia.
Defined.

(** ** The request *)

Lemma request_of_eq (config : pyval) :
  request_of config =
  match login_field config "url" with
  | Raise e => Raise e
  | Ret url =>
  match login_field config "opr" with
  | Raise e => Raise e
  | Ret opr =>
  match login_field config "userName" with
  | Raise e => Raise e
  | Ret userName =>
  match login_field config "pwd" with
  | Raise e => Raise e
  | Ret pwd =>
  match login_field config "auth_tag" with
  | Raise e => Raise e
  | Ret auth_tag =>
  match login_field config "rememberPwd" with
  | Raise e => Raise e
  | Ret rememberPwd =>
  match py_getitem config "Headers" with
  | Raise e => Raise e
  | Ret headers =>
      Ret {| req_url := url;
             req_data := PDict [("opr", opr); ("userName", userName); ("pwd", pwd);
                                ("auth_tag", auth_tag); ("rememberPwd", rememberPwd)];
             req_headers := headers;
             req_timeout := 10 |}
  end end end end end end end.
Proof.
  unfold request_of, login_field, LoginWorker.get_login_data, LoginWorker.get_headers,
    bind, lift, ret.
  destruct (py_getitem config "Login") as [login|e]; simpl; [|reflexivity].
  destruct (py_getitem login "url"); simpl; [|reflexivity].
  destruct (py_getitem login "opr"); simpl; [|reflexivity].
  destruct (py_getitem login "userName"); simpl; [|reflexivity].
  destruct (py_getitem login "pwd"); simpl; [|reflexivity].
  destruct (py_getitem login "auth_tag"); simpl; [|reflexivity].
  destruct (py_getitem login "rememberPwd"); simpl; [|reflexivity].
  destruct (py_getitem config "Headers"); reflexivity.
Qed.

(** X4.  The request of a login attempt is built from six entries of the
    [Login] section and from the [Headers] section, and from nothing else:
    two configurations that agree on these post the same request (or fail
    with the same exception before posting), whatever else they hold. *)
Theorem request_depends_on_login_and_headers (config config' : pyval) :
  (forall key,
     In key ["url"; "opr"; "userName"; "pwd"; "auth_tag"; "rememberPwd"] ->
     login_field config' key = login_field config key) ->
  py_getitem config' "Headers" = py_getitem config "Headers" ->
  request_of config' = request_of config.
Proof.
  intros Hlogin Hheaders.
  rewrite !request_of_eq, Hheaders.
  rewrite !Hlogin by (simpl; tauto). reflexivity.
Qed.

Lemma request_depends_on_login_and_headers_witness :
  request_of (campus_config [("check_interval", PInt 30)])
  = request_of (campus_config []).
Proof.
  apply request_depends_on_login_and_headers.
  - intros key _. reflexivity.
  - reflexivity.
Defined.

(* ================================================================== *)
(** * Further properties of the application *)
(* ================================================================== *)

(** ** Mappings *)


Lemma assoc_set_other (k k' : string) (v : pyval) (kvs : list (string * pyval)) :
  k' <> k -> assoc k' (assoc_set k v kvs) = assoc k' kvs.
Proof.
  intros Hk. induction kvs as [|[k0 v0] kvs IH]; simpl.
  - destruct (k =? k')%string eqn:E; [|reflexivity].
    apply String.eqb_eq in E. congruence.
  - destruct (k0 =? k)%string eqn:E; simpl.
    + apply String.eqb_eq in E. subst k0.
      destruct (k =? k')%string eqn:E'; [|reflexivity].
      apply String.eqb_eq in E'. congruence.
    + destruct (k0 =? k')%string; [reflexivity|exact IH].
Qed.

(** ** Assignments to the settings *)



Lemma assign_keeps_sections (key : string) (v : pyval) :
  preserves request_sections (NetworkLoginApp.config_settings_assign key v).
Proof.
  intros st.
  unfold NetworkLoginApp.config_settings_assign, bind, gets, lift, modify.
  destruct (py_getitem (config st) "Settings") as [settings|e] eqn:Hs; [|reflexivity].
  destruct (py_setitem settings key v) as [settings'|e]; [|reflexivity].
  destruct (config st) as [| | | | | |entries] eqn:Hcfg; simpl; try reflexivity.
  unfold request_sections; cbn [config set_config]. rewrite Hcfg.
  cbn [py_getitem].
  rewrite !assoc_set_other by discriminate. reflexivity.
Qed.

Lemma request_of_sections (config config' : pyval) :
  py_getitem config' "Login" = py_getitem config "Login" ->
  py_getitem config' "Headers" = py_getitem config "Headers" ->
  request_of config' = request_of config.
Proof.
  intros Hlogin Hheaders.
  rewrite !request_of_eq. unfold login_field. rewrite Hlogin, Hheaders. reflexivity.
Qed.

Ltac settings_frames :=
  repeat first
    [ apply assign_keeps_sections
    | frame_step
    | progress unfold NetworkLoginApp.log, NetworkLoginApp.act,
        NetworkLoginApp.save_config, NetworkLoginApp.cb_setChecked,
        NetworkLoginApp.update_periodic_timer,
        NetworkLoginApp.update_next_periodic_time, timer_start, timer_stop ].

(** The events of the settings widgets. *)
Lemma settings_slots_keep_sections (R : PyRuntime) (st : App) (ev : event) :
  match ev with
  | AutoReconnectTriggered _ | CheckboxToggled _
  | IntervalSpinChanged _ | PeriodicIntervalSpinChanged _ => True
  | _ => False
  end ->
  request_sections (step st ev) = request_sections st.
Proof.
  intros Hev. unfold step. apply preserves_apply.
  destruct ev; try contradiction; cbn [handle];
    unfold NetworkLoginApp.toggle_auto_reconnect, NetworkLoginApp.update_check_interval,
      NetworkLoginApp.update_periodic_login_interval;
    settings_frames.
Qed.

(** X5.  A change of a setting through the user interface (the tray
    action, the check box, either spin box) never changes what a login
    attempt posts: the request built from the configuration afterwards is
    the one built before, also when the slot raises. *)
Theorem settings_change_keeps_request (R : PyRuntime) (st : App) :
  (forall checked,
     request_of (config (step st (AutoReconnectTriggered checked)))
     = request_of (config st))
  /\ (forall checked,
        request_of (config (step st (CheckboxToggled checked)))
        = request_of (config st))
  /\ (forall n,
        request_of (config (step st (IntervalSpinChanged n)))
        = request_of (config st))
  /\ (forall n,
        request_of (config (step st (PeriodicIntervalSpinChanged n)))
        = request_of (config st)).
Proof.
  repeat split; intros x;
    match goal with
    | |- request_of (config (step st ?ev)) = _ =>
        pose proof (settings_slots_keep_sections R st ev I) as H
    end;
    unfold request_sections in H; injection H as Hlogin Hheaders;
    apply request_of_sections; assumption.
Qed.






(** ** Login results *)

Lemma run_worker_single (R : PyRuntime) (config : pyval) (post : Network) :
  exists message success, run_worker config post = ([(message, success)], Ret tt).
Proof.
  rewrite run_worker_eq.
  destruct (request_of config) as [request|e]; [|unfold failure_signal; eauto].
  destruct (post request) as [response|e]; [|unfold failure_signal; eauto].
  rewrite classify_eq.
  destruct (json response) as [v|e].
  - destruct v; try (unfold failure_signal; simpl; eauto).
    destruct (truthy _); eauto.
  - destruct (is_ValueError e); [|unfold failure_signal; simpl; eauto].
    destruct (_ || _); eauto.
Qed.

Lemma on_login_result_eq (message : string) (success : bool) (st : App) :
  NetworkLoginApp.on_login_result message success st
  = (set_shell (shell st ++ report message success) st, Ret tt).
Proof.
  unfold NetworkLoginApp.on_login_result, report, NetworkLoginApp.log,
    NetworkLoginApp.act, bind, modify.
  destruct success; unfold set_shell; simpl; now rewrite <- app_assoc.
Qed.

Lemma remove_nth_length {A : Type} (i : nat) (l : list A) :
  (i < List.length l)%nat -> S (List.length (remove_nth i l)) = List.length l.
Proof.
  revert i; induction l as [|x l IH]; intros i H; simpl in *; [lia|].
  destruct i; [reflexivity|]. simpl. rewrite IH; [reflexivity|lia].
Qed.

(** X8.  Every finished login attempt is reported exactly once: when the
    result of the [i]-th running worker is delivered, that thread leaves the
    list of attempts in flight, one log line (✓ or ✗) and one tray message
    show the worker's single signal, and nothing else changes. *)
Theorem finished_attempt_is_reported_once (R : PyRuntime) (st : App) (i : nat)
    (post : Network) (cfg : pyval) :
  nth_error (login_threads st) i = Some cfg ->
  exists message success,
    run_worker cfg post = ([(message, success)], Ret tt)
    /\ handle (LoginThreadDone i post) st
       = (set_shell (shell st ++ report message success)
            (set_login_threads (remove_nth i (login_threads st)) st), Ret tt)
    /\ S (in_flight (step st (LoginThreadDone i post))) = in_flight st.
Proof.
  intros Hnth.
  destruct (run_worker_single R cfg post) as (message & success & Hrun).
  exists message, success. split; [exact Hrun|].
  assert (Hhandle : handle (LoginThreadDone i post) st
                    = (set_shell (shell st ++ report message success)
                         (set_login_threads (remove_nth i (login_threads st)) st),
                       Ret tt)).
  { cbn [handle]. unfold bind at 1, gets at 1. rewrite Hnth.
    unfold bind at 1; cbn [modify]. rewrite Hrun. cbn [fst deliver].
    unfold bind at 1. rewrite on_login_result_eq. reflexivity. }
  split; [exact Hhandle|].
  unfold step. rewrite Hhandle. unfold in_flight; cbn.
  apply remove_nth_length. apply nth_error_Some. congruence.
Qed.

Lemma finished_attempt_is_reported_once_witness :
  exists message success,
    @run_worker example_runtime portal_config (answering body_ok)
    = ([(message, success)], Ret tt)
    /\ @handle example_runtime (LoginThreadDone 0 (answering body_ok))
         (@step example_runtime (@started example_runtime portal_config) LoginClicked)
       = (set_shell
            (shell (@step example_runtime (@started example_runtime portal_config)
                      LoginClicked)
               ++ report message success)
            (set_login_threads
               (remove_nth 0
                  (login_threads
                     (@step example_runtime (@started example_runtime portal_config)
                        LoginClicked)))
               (@step example_runtime (@started example_runtime portal_config)
                  LoginClicked)),
          Ret tt)
    /\ S (in_flight
            (@step example_runtime
               (@step example_runtime (@started example_runtime portal_config)
                  LoginClicked)
               (LoginThreadDone 0 (answering body_ok))))
       = in_flight (@step example_runtime (@started example_runtime portal_config)
                      LoginClicked).
Proof.
  apply (@finished_attempt_is_reported_once example_runtime).
  vm_compute; reflexivity.
Defined.

(** ** Who starts an attempt *)

Lemma remove_nth_shorter {A : Type} (i : nat) (l : list A) :
  (List.length (remove_nth i l) <= List.length l)%nat.
Proof.
  revert i; induction l as [|x l IH]; intros i; simpl; [destruct i; simpl; lia|].
  destruct i; simpl; [lia|]. specialize (IH i). lia.
Qed.

(** X9.  Only the three triggers start a login attempt: an event that is
    not a manual request, a failed probe with auto-reconnect on or a
    periodic timeout never raises the number of attempts in flight.  A
    reload, a change of a setting, a reachable probe and a delivered result
    start nothing. *)
Theorem only_triggers_start_attempts (R : PyRuntime) (st : App) (ev : event) :
  is_trigger ev st = false ->
  (in_flight (step st ev) <= in_flight st)%nat
  /\ (match ev with LoginThreadDone _ _ => False | _ => True end ->
      login_threads (step st ev) = login_threads st).
Proof.
  intros Htrigger.
  assert (Hsame : match ev with LoginThreadDone _ _ => False | _ => True end ->
                  login_threads (step st ev) = login_threads st).
  { intros Hev. unfold step.
    destruct ev; cbn [is_trigger] in Htrigger; try discriminate Htrigger;
      try contradiction; cbn [handle];
      try (apply preserves_apply; solve [frames]).
    unfold NetworkLoginApp.on_network_status_changed, bind, gets.
    unfold effective_auto_reconnect in Htrigger. rewrite Htrigger. reflexivity. }
  split; [|exact Hsame].
  destruct ev; try (unfold in_flight; rewrite Hsame by exact I; lia).
  unfold step, in_flight; cbn [handle].
  unfold bind at 1, gets at 1.
  destruct (nth_error (login_threads st) i) as [cfg|]; [|cbn; lia].
  rewrite fst_bind; cbn [modify].
  etransitivity; [|apply (remove_nth_shorter i (login_threads st))].
  apply Nat.eq_le_incl. f_equal.
  etransitivity; [apply preserves_apply; frames|]. reflexivity.
Qed.

Lemma only_triggers_start_attempts_witness :
  (in_flight (@step example_runtime (@started example_runtime portal_config)
                (ReloadClicked (file_of portal_config)))
   <= in_flight (@started example_runtime portal_config))%nat.
Proof.
  apply (@only_triggers_start_attempts example_runtime). reflexivity.
Defined.

(** X10.  [do_login] starts a worker thread exactly when the guard finds
    all three fields present and none a placeholder; in every other case
    (a placeholder, a missing field, a URL that is no text) it starts
    nothing and the list of attempts in flight stays as it is. *)
Theorem do_login_starts_thread_iff (st : App) :
  (credentials_configured (config st) ->
   login_threads (fst (NetworkLoginApp.do_login st))
   = (login_threads st ++ [config st])%list)
  /\ (~ credentials_configured (config st) ->
      login_threads (fst (NetworkLoginApp.do_login st)) = login_threads st).
Proof.
  split.
  - intros H. rewrite (do_login_configured st H). reflexivity.
  - intros Hnot.
    unfold NetworkLoginApp.do_login, bind.
    rewrite config_login_eq.
    destruct (login_field (config st) "userName") as [userName|e] eqn:Hu;
      cbv beta iota; [|reflexivity].
    destruct (py_eq_str userName "YOUR_USERNAME") eqn:Eu;
      [rewrite refuse_unconfigured_eq; reflexivity|].
    rewrite config_login_eq.
    destruct (login_field (config st) "pwd") as [pwd|e] eqn:Hp;
      cbv beta iota; [|reflexivity].
    destruct (py_eq_str pwd "YOUR_PASSWORD") eqn:Ep;
      [rewrite refuse_unconfigured_eq; reflexivity|].
    rewrite config_login_eq.
    destruct (login_field (config st) "url") as [url|e] eqn:Hl;
      cbv beta iota; [|reflexivity].
    unfold lift.
    destruct (py_in "YOUR_LOGIN_SERVER" url) as [[|]|e] eqn:El;
      [rewrite refuse_unconfigured_eq; reflexivity| |reflexivity].
    exfalso. apply Hnot. exists userName, pwd, url. repeat split; assumption.
Qed.

(** ** Invariants of a computation *)

Section Maintenance.
Context {S : Type} (P : S -> Prop).









End Maintenance.



(** ** Reloading *)









Lemma settings_field_mapping (entries settings : list (string * pyval))
    (key : string) (default : pyval) :
  assoc "Settings" entries = Some (PDict settings) ->
  settings_field (PDict entries) key default = Ret (field_or settings key default).
Proof.
  intros Hassoc. unfold settings_field. cbn [py_getitem]. rewrite Hassoc. reflexivity.
Qed.

(** Reading the four settings (lines 106-109 and 549-552) from a [Settings]
    section that is a mapping. *)
Lemma read_settings_eq (k : M App unit) (st : App)
    (entries settings : list (string * pyval)) :
  config st = PDict entries ->
  assoc "Settings" entries = Some (PDict settings) ->
  (auto <- NetworkLoginApp.config_settings_get "auto_reconnect" (PBool true) ;;
   modify (set_auto_reconnect auto) ;;
   check <- NetworkLoginApp.config_settings_get "check_interval" (PInt 60) ;;
   modify (set_check_interval check) ;;
   periodic <- NetworkLoginApp.config_settings_get "periodic_login_interval" (PInt 0) ;;
   modify (set_periodic_login_interval periodic) ;;
   forced <- NetworkLoginApp.config_settings_get "forced_auto_reconnect" (PBool false) ;;
   modify (set_forced_auto_reconnect forced) ;;
   k) st
  = k (set_forced_auto_reconnect (forced_setting settings)
         (set_periodic_login_interval
            (field_or settings "periodic_login_interval" (PInt 0))
            (set_check_interval (field_or settings "check_interval" (PInt 60))
               (set_auto_reconnect (field_or settings "auto_reconnect" (PBool true))
                  st)))).
Proof.
  intros Hcfg Hassoc.
  unfold bind at 1. rewrite config_settings_get_eq, Hcfg,
    (settings_field_mapping _ _ _ _ Hassoc).
  unfold bind at 1; cbn [modify].
  unfold bind at 1. rewrite config_settings_get_eq.
  cbn [config set_auto_reconnect].
  rewrite Hcfg, (settings_field_mapping _ _ _ _ Hassoc).
  unfold bind at 1; cbn [modify].
  unfold bind at 1. rewrite config_settings_get_eq.
  cbn [config set_auto_reconnect set_check_interval].
  rewrite Hcfg, (settings_field_mapping _ _ _ _ Hassoc).
  unfold bind at 1; cbn [modify].
  unfold bind at 1. rewrite config_settings_get_eq.
  cbn [config set_auto_reconnect set_check_interval set_periodic_login_interval].
  rewrite Hcfg, (settings_field_mapping _ _ _ _ Hassoc).
  unfold bind at 1; cbn [modify].
  reflexivity.
Qed.










(** ** Startup *)

(** X15.  [__init__] reads the settings as a reload does: when the
    [Settings] section of the configuration loaded is a mapping, the four
    attributes hold its entries, each absent key by its default, and a
    forced auto-reconnect turns auto-reconnect on.  Startup starts no login
    attempt by itself. *)
Theorem startup_applies_settings (R : PyRuntime) (file : FileRead)
    (entries settings : list (string * pyval)) :
  loaded file = Ret (PDict entries) ->
  assoc "Settings" entries = Some (PDict settings) ->
  config (fst (NetworkLoginApp.init file NetworkLoginApp.blank)) = PDict entries
  /\ auto_reconnect (fst (NetworkLoginApp.init file NetworkLoginApp.blank))
     = auto_setting settings
  /\ check_interval (fst (NetworkLoginApp.init file NetworkLoginApp.blank))
     = field_or settings "check_interval" (PInt 60)
  /\ periodic_login_interval (fst (NetworkLoginApp.init file NetworkLoginApp.blank))
     = field_or settings "periodic_login_interval" (PInt 0)
  /\ forced_auto_reconnect (fst (NetworkLoginApp.init file NetworkLoginApp.blank))
     = forced_setting settings
  /\ login_threads (fst (NetworkLoginApp.init file NetworkLoginApp.blank)) = [].
Proof.
  intros Hloaded Hassoc.
  set (f := fun s : App =>
              (config s, auto_reconnect s, check_interval s,
               periodic_login_interval s, forced_auto_reconnect s, login_threads s)).
  assert (Hf : f (fst (NetworkLoginApp.init file NetworkLoginApp.blank))
               = (PDict entries, auto_setting settings,
                  field_or settings "check_interval" (PInt 60),
                  field_or settings "periodic_login_interval" (PInt 0),
                  forced_setting settings, [])).
  { unfold NetworkLoginApp.init.
    rewrite fst_bind. unfold lift at 1. rewrite Hloaded.
    rewrite fst_bind; cbn [modify].
    rewrite (read_settings_eq _ (set_config (PDict entries) NetworkLoginApp.blank)
               entries settings eq_refl Hassoc).
    rewrite fst_bind; cbn [gets forced_auto_reconnect set_forced_auto_reconnect].
    rewrite fst_bind.
    unfold auto_setting.
    destruct (truthy (forced_setting settings)) eqn:Hforced.
    - cbn [modify].
      etransitivity; [apply preserves_apply; frames|]. reflexivity.
    - cbn [ret].
      etransitivity; [apply preserves_apply; frames|]. reflexivity. }
  unfold f in Hf. injection Hf as H1 H2 H3 H4 H5 H6. repeat split; assumption.
Qed.

Lemma startup_applies_settings_witness :
  auto_reconnect (fst (@NetworkLoginApp.init example_runtime (file_of forced_config)
                         NetworkLoginApp.blank))
  = auto_setting [("auto_reconnect", PBool false); ("forced_auto_reconnect", PBool true)].
Proof.
  apply (@startup_applies_settings example_runtime (file_of forced_config)
           _ [("auto_reconnect", PBool false); ("forced_auto_reconnect", PBool true)]
           eq_refl eq_refl).
Defined.

(* ================================================================== *)
(** * Properties of the network monitor *)
(* ================================================================== *)

Lemma monitor_setting_eq (key : string) (default : pyval) (m : Monitor) :
  NetworkMonitor.setting key default m
  = (m, settings_field (monitor_config m) key default).
Proof.
  unfold NetworkMonitor.setting, settings_field, bind, gets, lift.
  destruct (py_getitem (monitor_config m) "Settings"); reflexivity.
Qed.

(** The probe of a pass (lines 84-91): exactly one status, no exception. *)
Lemma monitor_probe_eq (get : Probe) (m : Monitor) :
  exists status,
    try_except
      (test_url <- NetworkMonitor.setting "test_url" (PStr "http://www.baidu.com") ;;
       test_timeout <- NetworkMonitor.setting "test_timeout" (PInt 5) ;;
       status_code <- lift (get test_url test_timeout) ;;
       NetworkMonitor.emit_status (status_code =? 200))
      [(fun _ => true, fun _ => NetworkMonitor.emit_status false)] m
    = ({| monitor_config := monitor_config m; running := running m;
          network_status := (network_status m ++ [status])%list;
          slept := slept m |}, Ret tt)
    /\ (status = true <-> probe_ok (monitor_config m) get).
Proof.
  unfold try_except, probe_ok.
  unfold bind at 1. rewrite monitor_setting_eq.
  destruct (settings_field (monitor_config m) "test_url" _) as [test_url|e] eqn:Hurl.
  2:{ exists false. split; [reflexivity|].
      split; [discriminate|]. intros (? & ? & H & _). discriminate H. }
  unfold bind at 1. rewrite monitor_setting_eq.
  destruct (settings_field (monitor_config m) "test_timeout" _)
    as [test_timeout|e] eqn:Htimeout.
  2:{ exists false. split; [reflexivity|].
      split; [discriminate|]. intros (? & ? & _ & H & _). discriminate H. }
  unfold bind at 1, lift at 1.
  destruct (get test_url test_timeout) as [status_code|e] eqn:Hget.
  2:{ exists false. split; [reflexivity|].
      split; [discriminate|]. intros (u & t & Hu & Ht & H).
      injection Hu as <-. injection Ht as <-. congruence. }
  exists (status_code =? 200). split; [reflexivity|].
  split.
  - intros H. apply Z.eqb_eq in H. subst status_code.
    exists test_url, test_timeout. repeat split; assumption.
  - intros (u & t & Hu & Ht & H).
    injection Hu as <-. injection Ht as <-.
    rewrite Hget in H. injection H as ->. reflexivity.
Qed.

(** One pass (lines 84-93): its only status, and what it leaves as it is. *)
Lemma monitor_pass_status (m : Monitor) (get : Probe) :
  exists status,
    network_status (fst (NetworkMonitor.cycle get m))
    = (network_status m ++ [status])%list
    /\ (status = true <-> probe_ok (monitor_config m) get)
    /\ monitor_config (fst (NetworkMonitor.cycle get m)) = monitor_config m
    /\ running (fst (NetworkMonitor.cycle get m)) = running m.
Proof.
  destruct (monitor_probe_eq get m) as (status & Hprobe & Hstatus).
  exists status.
  unfold NetworkMonitor.cycle.
  rewrite fst_bind, Hprobe.
  rewrite fst_bind, monitor_setting_eq.
  cbn [monitor_config].
  destruct (settings_field (monitor_config m) "check_interval" (PInt 60))
    as [interval|e]; [|repeat split; try reflexivity; apply Hstatus].
  unfold NetworkMonitor.sleep, bind, lift, modify.
  destruct (py_sleep interval) as [[]|e];
    repeat split; try reflexivity; apply Hstatus.
Qed.

(** X16.  Each pass of the monitor emits exactly one status, whether the
    pass ends normally or its sleep raises; the status is [True] exactly
    when both settings could be read and the GET returned status 200, and
    [False] for every other status code, exception or unreadable setting.
    The pass changes neither the configuration nor the running flag. *)
Theorem monitor_pass_emits_one_status (m : Monitor) (get : Probe) :
  exists status,
    network_status (fst (NetworkMonitor.cycle get m))
    = (network_status m ++ [status])%list
    /\ (status = true <-> probe_ok (monitor_config m) get)
    /\ monitor_config (fst (NetworkMonitor.cycle get m)) = monitor_config m
    /\ running (fst (NetworkMonitor.cycle get m)) = running m.
Proof. exact (monitor_pass_status m get). Qed.

Lemma monitor_run_stopped (cycles : list Cycle) (m : Monitor) :
  running m = false -> NetworkMonitor.run cycles m = (m, Ret tt).
Proof.
  intros H. destruct cycles as [|c rest]; [reflexivity|].
  cbn [NetworkMonitor.run]. unfold bind, gets. rewrite H. reflexivity.
Qed.

Lemma monitor_run_cons (c : Cycle) (rest : list Cycle) (m : Monitor) :
  running m = true ->
  NetworkMonitor.run (c :: rest) m
  = match NetworkMonitor.cycle (cycle_get c) m with
    | (m1, Ret _) =>
        NetworkMonitor.run rest
          (if stop_requested c then fst (NetworkMonitor.stop m1) else m1)
    | (m1, Raise e) => (m1, Raise e)
    end.
Proof.
  intros Hrunning. cbn [NetworkMonitor.run]. unfold bind, gets. rewrite Hrunning.
  destruct (NetworkMonitor.cycle (cycle_get c) m) as [m1 [[]|e]]; [|reflexivity].
  destruct (stop_requested c); reflexivity.
Qed.

(** X17.  [stop()] is cooperative: when it is called during a pass, that
    pass still completes (its status is emitted), and no later pass starts,
    whatever the network would have answered. *)
Theorem monitor_stop_is_cooperative (m : Monitor) (c : Cycle) (rest : list Cycle) :
  running m = true ->
  stop_requested c = true ->
  NetworkMonitor.run (c :: rest) m = NetworkMonitor.run [c] m
  /\ List.length (network_status (fst (NetworkMonitor.run (c :: rest) m)))
     = S (List.length (network_status m)).
Proof.
  intros Hrunning Hstop.
  destruct (monitor_pass_status m (cycle_get c))
    as (status & Hstatus & _ & _ & _).
  rewrite !(monitor_run_cons c _ m Hrunning), Hstop.
  destruct (NetworkMonitor.cycle (cycle_get c) m) as [m1 [[]|e]] eqn:Hcycle;
    cbn [fst] in Hstatus.
  - rewrite (monitor_run_stopped rest) by reflexivity.
    split; [reflexivity|]. cbn. rewrite Hstatus, length_app. cbn. lia.
  - split; [reflexivity|]. cbn. rewrite Hstatus, length_app. cbn. lia.
Qed.

Lemma monitor_stop_is_cooperative_witness :
  List.length
    (network_status
       (fst (NetworkMonitor.run
               [{| cycle_get := fun _ _ => Ret 200; stop_requested := true |};
                {| cycle_get := fun _ _ => Ret 200; stop_requested := false |}]
               (NetworkMonitor.init portal_config))))
  = S (List.length (network_status (NetworkMonitor.init portal_config))).
Proof.
  apply (proj2 (monitor_stop_is_cooperative (NetworkMonitor.init portal_config)
                  {| cycle_get := fun _ _ => Ret 200; stop_requested := true |}
                  [{| cycle_get := fun _ _ => Ret 200; stop_requested := false |}]
                  eq_refl eq_refl)).
Defined.

Lemma monitor_pass_sleeps (m : Monitor) (get : Probe) (interval : pyval) :
  settings_field (monitor_config m) "check_interval" (PInt 60) = Ret interval ->
  py_sleep interval = Ret tt ->
  exists status,
    NetworkMonitor.cycle get m
    = ({| monitor_config := monitor_config m; running := running m;
          network_status := (network_status m ++ [status])%list;
          slept := (slept m ++ [interval])%list |}, Ret tt).
Proof.
  intros Hinterval Hsleep.
  destruct (monitor_probe_eq get m) as (status & Hprobe & _).
  exists status.
  unfold NetworkMonitor.cycle.
  unfold bind at 1. rewrite Hprobe.
  unfold bind at 1. rewrite monitor_setting_eq. cbn [monitor_config].
  rewrite Hinterval.
  unfold NetworkMonitor.sleep, bind, lift, modify. rewrite Hsleep. reflexivity.
Qed.

(** X18.  While nobody stops it and the check interval is a number that
    is not negative, the monitor makes one probe per pass and sleeps the
    check interval after each: over any passes observed it emits as many
    statuses as there are passes, sleeps as often, and is still running. *)
Theorem monitor_probes_every_pass (cycles : list Cycle) (m : Monitor)
    (interval : pyval) :
  running m = true ->
  settings_field (monitor_config m) "check_interval" (PInt 60) = Ret interval ->
  py_sleep interval = Ret tt ->
  forallb (fun c => negb (stop_requested c)) cycles = true ->
  snd (NetworkMonitor.run cycles m) = Ret tt
  /\ List.length (network_status (fst (NetworkMonitor.run cycles m)))
     = (List.length (network_status m) + List.length cycles)%nat
  /\ slept (fst (NetworkMonitor.run cycles m))
     = (slept m ++ repeat interval (List.length cycles))%list
  /\ running (fst (NetworkMonitor.run cycles m)) = true.
Proof.
  revert m; induction cycles as [|c rest IH];
    intros m Hrunning Hinterval Hsleep Hstops.
  - cbn. rewrite app_nil_r, Nat.add_0_r. repeat split; try reflexivity. exact Hrunning.
  - cbn [forallb] in Hstops. apply andb_prop in Hstops.
    destruct Hstops as [Hc Hrest]. apply negb_true_iff in Hc.
    destruct (monitor_pass_sleeps m (cycle_get c) interval Hinterval Hsleep)
      as (status & Hcycle).
    rewrite !(monitor_run_cons c rest m Hrunning), Hcycle, Hc.
    match goal with
    | |- context [NetworkMonitor.run rest ?m1] =>
        specialize (IH m1 Hrunning Hinterval Hsleep Hrest);
        destruct IH as (IH1 & IH2 & IH3 & IH4)
    end.
    split; [exact IH1|]. split; [|split; [|exact IH4]].
    + rewrite IH2. cbn [network_status]. rewrite length_app. cbn. lia.
    + rewrite IH3. cbn [slept repeat List.length]. rewrite <- app_assoc. reflexivity.
Qed.

Lemma monitor_probes_every_pass_witness :
  List.length
    (network_status
       (fst (NetworkMonitor.run
               [{| cycle_get := fun _ _ => Ret 200; stop_requested := false |};
                {| cycle_get := fun _ _ => Raise (Exn Timeout "timed out");
                   stop_requested := false |}]
               (NetworkMonitor.init portal_config))))
  = (List.length (network_status (NetworkMonitor.init portal_config)) + 2)%nat.
Proof.
  apply (monitor_probes_every_pass
           [{| cycle_get := fun _ _ => Ret 200; stop_requested := false |};
            {| cycle_get := fun _ _ => Raise (Exn Timeout "timed out");
               stop_requested := false |}]
           (NetworkMonitor.init portal_config) (PInt 60)
           eq_refl eq_refl eq_refl eq_refl).
Defined.


